(** * The Daily Pennsylvanian headline scraper (script.py)

    A shallow embedding of [script.py]: the four scraping functions
    ([scrape_data_point], [scrape_featured_headlines],
    [scrape_most_recent_headlines], [scrape_social_media_links]) and the
    [__main__] block that stores their results in a [DailyEventMonitor].

    - Python [str] is [string]; a character is a code point below 256.
    - A BeautifulSoup tree is the inductive [PageElement].
    - [dict] is stdpp's [gmap] with [string] keys.
    - [requests.get] reads the next outcome of the network, a function from
      the request number to what that request yields; the request counter is
      the state threaded through the scraping functions.
    - A raised exception is the [Raise] case of [result].
    - Logging is left out; it changes nothing the functions return or
      store. Writing the file is taken to succeed. *)

From Stdlib Require Import Ascii.
From stdpp Require Import base option list strings gmap fin_maps.

Set Warnings "-register-all".

(** ** Python strings *)

Module Str.

(** [str.isspace] on one character, for code points below 256: TAB, LF, VT,
    FF, CR, the separators FS GS RS US, space, NEL and NBSP. *)
Definition isspace (c : ascii) : bool :=
  match c with
  | "009" | "010" | "011" | "012" | "013"
  | "028" | "029" | "030" | "031" | " " | "133" | "160" => true
  | _ => false
  end%char.

(** [s.lstrip()] *)
Fixpoint lstrip (s : string) : string :=
  match s with
  | EmptyString => EmptyString
  | String c s' => if isspace c then lstrip s' else s
  end.

(** [s.rstrip()] *)
Fixpoint rstrip (s : string) : string :=
  match s with
  | EmptyString => EmptyString
  | String c s' =>
      match rstrip s' with
      | EmptyString => if isspace c then EmptyString else String c EmptyString
      | t => String c t
      end
  end.

(** [s.strip()] *)
Definition strip (s : string) : string := rstrip (lstrip s).

(** [sub in s] *)
Fixpoint contains (sub s : string) : bool :=
  String.prefix sub s
  || match s with
     | EmptyString => false
     | String _ s' => contains sub s'
     end.

(** [sep.join(l)] *)
Fixpoint join (sep : string) (l : list string) : string :=
  match l with
  | [] => ""
  | [x] => x
  | x :: l' => x +:+ sep +:+ join sep l'
  end.

(** Every character of [s] is white space. *)
Fixpoint blank (s : string) : bool :=
  match s with
  | EmptyString => true
  | String c s' => isspace c && blank s'
  end.

(** The first and the last character of a string. *)
Definition first (s : string) : option ascii :=
  match s with
  | EmptyString => None
  | String c _ => Some c
  end.

Fixpoint final (s : string) : option ascii :=
  match s with
  | EmptyString => None
  | String c EmptyString => Some c
  | String _ s' => final s'
  end.

End Str.

(** ** BeautifulSoup trees *)

(** What [html.parser] builds. A [Tag] carries its name, the tokens of its
    [class] attribute (bs4 stores this attribute as the list of its words;
    the list is empty for a tag without one), its other attributes, whose
    values are strings, and its children in document order. The
    [BeautifulSoup] object is itself a [Tag], named ["[document]"]. *)
Inductive PageElement : Type :=
| NavigableString (s : string)
| Tag (name : string) (class_ : list string) (attrs : gmap string string)
      (contents : list PageElement).

Module Soup.

(** [tag.descendants]: every node below [e], in document order. *)
Fixpoint descendants (e : PageElement) : list PageElement :=
  match e with
  | NavigableString _ => []
  | Tag _ _ _ cs => flat_map (fun c => c :: descendants c) cs
  end.

(** [tag.text]: the strings below [e], concatenated in document order. *)
Fixpoint text (e : PageElement) : string :=
  match e with
  | NavigableString s => s
  | Tag _ _ _ cs => fold_right (fun c acc => text c +:+ acc) "" cs
  end.

(** [tag.get(key)] *)
Definition get (key : string) (e : PageElement) : option string :=
  match e with
  | NavigableString _ => None
  | Tag _ _ attrs _ => attrs !! key
  end.

(** How bs4 matches [class_=q] against a tag's class list: some token is
    [q], or the tokens joined by single spaces are [q]. *)
Definition class_matches (q : string) (cls : list string) : bool :=
  existsb (String.eqb q) cls || String.eqb (Str.join " " cls) q.

(** A tag called [name]; with [class_=q] when [q] is given. *)
Definition matches (name : string) (q : option string) (e : PageElement) : bool :=
  match e with
  | NavigableString _ => false
  | Tag n cls _ _ =>
      String.eqb n name
      && match q with
         | None => true
         | Some q => class_matches q cls
         end
  end.

(** [tag.findAll(name, class_=q)] *)
Definition findAll (name : string) (q : option string) (e : PageElement)
  : list PageElement :=
  List.filter (matches name q) (descendants e).

(** [tag.find(name, class_=q)]: the first match, [None] without one. *)
Definition find (name : string) (q : option string) (e : PageElement)
  : option PageElement :=
  head (findAll name q e).

End Soup.

(** ** Exceptions, responses and the network *)

Inductive exn : Type :=
| AttributeError      (* attribute access on [None] *)
| RequestException.   (* [requests.get] could not complete the request *)

Inductive result (A : Type) : Type :=
| Return (a : A)
| Raise (e : exn).
Arguments Return {A} a.
Arguments Raise {A} e.

(** What the code reads of a [requests.Response]. *)
Record Response : Type := mkResponse {
  ok : bool;
  status_code : Z;
  text : string
}.

(** What one call of [requests.get] yields. *)
Inductive outcome : Type :=
| Responds (r : Response)
| Fails.

(** A computation that may call [requests.get]: the state is the number of
    requests made so far, and it ends by returning or by raising. *)
Definition M (A : Type) : Type := nat → result A * nat.

Definition ret {A} (a : A) : M A := fun n => (Return a, n).
Definition bind {A B} (m : M A) (k : A → M B) : M B :=
  fun n =>
    match m n with
    | (Return a, n') => k a n'
    | (Raise e, n') => (Raise e, n')
    end.
Definition lift {A} (r : result A) : M A := fun n => (r, n).

Notation "'let*' x ':=' m 'in' k" := (bind m (fun x => k))
  (at level 10, x name, m at level 200, k at level 200, only parsing).

(** A list comprehension whose body may raise: the first failure ends it. *)
Fixpoint comprehension {A B} (f : A → result B) (l : list A) : result (list B) :=
  match l with
  | [] => Return []
  | x :: l' =>
      match f x with
      | Raise e => Raise e
      | Return y =>
          match comprehension f l' with
          | Raise e => Raise e
          | Return ys => Return (y :: ys)
          end
      end
  end.

(** [o.attr] for [o] that may be [None]. *)
Definition getattr {A B} (o : option A) (attr : A → B) : result B :=
  match o with
  | Some e => Return (attr e)
  | None => Raise AttributeError
  end.

(** Python's truth value of [tag.get(key)]: [None] and [""] are false. *)
Definition truthy (href : option string) : bool :=
  match href with
  | Some (String _ _) => true
  | _ => false
  end.

(** ** The scraping functions *)

Section Scraper.

(** [bs4.BeautifulSoup(markup, "html.parser")] *)
Variable BeautifulSoup : string → PageElement.
(** The outcome of the [n]-th request of the run, for the URL asked. *)
Variable network : string → nat → outcome.

Definition requests_get (url : string) : M Response :=
  fun n =>
    match network url n with
    | Responds r => (Return r, S n)
    | Fails => (Raise RequestException, S n)
    end.

(** [scrape_data_point]; [None] is Python's [None], which the function
    returns by falling off its end when [req.ok] is false. *)
Definition scrape_data_point : M (option string) :=
  let* req := requests_get "https://www.thedp.com" in
  if ok req then
    let soup := BeautifulSoup (text req) in
    let target_element := Soup.find "a" (Some "frontpage-link") soup in
    let data_point :=
      match target_element with
      | None => ""
      | Some e => Soup.text e
      end in
    ret (Some data_point)
  else ret None.

Definition scrape_featured_headlines : M (list string) :=
  let* req := requests_get "https://www.thedp.com" in
  if ok req then
    let soup := BeautifulSoup (text req) in
    let target_divs := Soup.findAll "div" (Some "special-edition") soup in
    let target_a_items :=
      map (Soup.find "a" (Some "frontpage-link standard-link")) target_divs in
    let* formatted_titles :=
      lift (comprehension
              (fun a => getattr a (fun e => Str.strip (Soup.text e)))
              target_a_items) in
    ret formatted_titles
  else ret [].

Definition scrape_most_recent_headlines : M (list string) :=
  let* req := requests_get "https://www.thedp.com" in
  if ok req then
    let soup := BeautifulSoup (text req) in
    let target_div_items :=
      Soup.findAll "div" (Some "story sidebar-story") soup in
    let formatted_titles :=
      map (fun a => Str.strip (Soup.text a)) target_div_items in
    ret formatted_titles
  else ret [].

(** The first loop of [scrape_social_media_links]: the [href] of the first
    link of each list item, kept when it is not empty. *)
Fixpoint collect_links (target_li : list PageElement) (links : list string)
  : result (list string) :=
  match target_li with
  | [] => Return links
  | li :: rest =>
      let target_a_ele := Soup.find "a" None li in
      match getattr target_a_ele (Soup.get "href") with
      | Raise e => Raise e
      | Return href =>
          if truthy href
          then collect_links rest (links ++ [default "" href])
          else collect_links rest links
      end
  end.

(** One turn of its second loop. *)
Definition classify (formatted_output : gmap string string) (link : string)
  : gmap string string :=
  if Str.contains "facebook.com" link then
    <["facebook" := link]> formatted_output
  else if Str.contains "twitter.com" link then
    <["twitter" := link]> formatted_output
  else if Str.contains "instagram.com" link then
    <["instagram" := link]> formatted_output
  else formatted_output.

(** What the first loop keeps of a list item that has a link: the [href]
    of its first link, when there is one and it is not empty. *)
Definition href_of (li : PageElement) : option string :=
  match Soup.find "a" None li with
  | Some a =>
      match Soup.get "href" a with
      | Some (String c s) => Some (String c s)
      | _ => None
      end
  | None => None
  end.

(** The key a link is stored under: that of the first of the three domains
    it contains, in the order of the [if]/[elif] chain; none for a link
    that contains none of them. *)
Definition platform (link : string) : option string :=
  if Str.contains "facebook.com" link then Some "facebook"
  else if Str.contains "twitter.com" link then Some "twitter"
  else if Str.contains "instagram.com" link then Some "instagram"
  else None.

Definition scrape_social_media_links : M (gmap string string) :=
  let* req := requests_get "https://www.thedp.com" in
  if ok req then
    let soup := BeautifulSoup (text req) in
    let target_ul := Soup.find "ul" (Some "social-icons") soup in
    let* target_li := lift (getattr target_ul (Soup.findAll "li" None)) in
    let* links := lift (collect_links target_li []) in
    let formatted_output := fold_left classify links ∅ in
    ret formatted_output
  else ret ∅.

End Scraper.

(** ** The values stored and the event monitor *)

(** The Python values [__main__] hands to the monitor: a [str], a [list] or
    a [dict] with [str] keys. *)
Inductive value : Type :=
| VStr (s : string)
| VList (l : list value)
| VDict (d : gmap string value).

Definition of_strs (l : list string) : value := VList (VStr <$> l).
Definition of_links (d : gmap string string) : value := VDict (VStr <$> d).

(** What a path of the file system holds: a JSON object, read as the mapping
    from its keys to their values, or something that does not parse. *)
Inductive file : Type :=
| Json (d : gmap string value)
| Garbage.

(** Modelled from the spec: [daily_event_monitor.DailyEventMonitor], whose
    module is not among the sources. The store is a date-keyed mapping
    backed by one file: the constructor loads the file (an absent or
    unparsable file gives the empty store), [add_today] inserts or
    overwrites the entry of the current day, [save] rewrites the whole
    file from the mapping in memory. *)
Record DailyEventMonitor : Type := mkMonitor {
  file_path : string;
  data : gmap string value
}.

Module Monitor.

Definition load (path : string) (files : gmap string file) : DailyEventMonitor :=
  {| file_path := path;
     data := match files !! path with
             | Some (Json d) => d
             | _ => ∅
             end |}.

Definition add_today (today : string) (v : value) (dem : DailyEventMonitor)
  : DailyEventMonitor :=
  {| file_path := file_path dem; data := <[today := v]> (data dem) |}.

Definition save (dem : DailyEventMonitor) (files : gmap string file)
  : gmap string file :=
  <[file_path dem := Json (data dem)]> files.

End Monitor.

(** ** The [__main__] block *)

(** What a run can see and change: whether [os.makedirs("data")] succeeds,
    the files, and the number of requests made. *)
Record World : Type := mkWorld {
  can_makedirs : bool;
  files : gmap string file;
  requests : nat
}.

(** The four variables the [try] block binds; [None] is Python's [None]. *)
Record Scraped : Type := mkScraped {
  data_point : option string;
  feat_headlines : option (list string);
  most_recent : option (list string);
  social_media : option (gmap string string)
}.

Section Main.

Variable BeautifulSoup : string → PageElement.
Variable network : string → nat → outcome.
(** The key of the current day, as the monitor formats it. *)
Variable today : string.

(** Lines 139-151: the four calls, and the handler that sets all four
    variables to [None] when one of them raises. *)
Definition run_scrape : nat → Scraped * nat :=
  fun n =>
    match
      (let* data_point := scrape_data_point BeautifulSoup network in
       let* feat_headlines := scrape_featured_headlines BeautifulSoup network in
       let* most_recent := scrape_most_recent_headlines BeautifulSoup network in
       let* social_media := scrape_social_media_links BeautifulSoup network in
       ret (mkScraped data_point (Some feat_headlines) (Some most_recent)
              (Some social_media))) n
    with
    | (Return s, n') => (s, n')
    | (Raise _, n') => (mkScraped None None None None, n')
    end.

(** Lines 159-169: the mapping built from the variables that are not [None]. *)
Definition build_my_out (s : Scraped) : gmap string value :=
  let my_out : gmap string value := ∅ in
  let my_out :=
    match feat_headlines s with
    | Some l => <["featured_headlines" := of_strs l]> my_out
    | None => my_out
    end in
  let my_out :=
    match most_recent s with
    | Some l => <["recent_headlines" := of_strs l]> my_out
    | None => my_out
    end in
  let my_out :=
    match social_media s with
    | Some d => <["social_links" := of_links d]> my_out
    | None => my_out
    end in
  my_out.

(** Lines 153-172: the writes to the monitor and to its file. *)
Definition save_data (s : Scraped) (dem : DailyEventMonitor)
    (fs : gmap string file) : DailyEventMonitor * gmap string file :=
  let '(dem, fs) :=
    match data_point s with
    | Some d =>
        let dem := Monitor.add_today today (VStr d) dem in
        (dem, Monitor.save dem fs)
    | None => (dem, fs)
    end in
  let my_out := build_my_out s in
  let dem := Monitor.add_today today (VDict my_out) dem in
  (dem, Monitor.save dem fs).

(** A run: the exit status of the process ([0] when it reaches its end) and
    the world it leaves. *)
Definition main (w : World) : Z * World :=
  if can_makedirs w then
    let dem :=
      Monitor.load "data/daily_pennsylvanian_headlines.json" (files w) in
    let '(s, n) := run_scrape (requests w) in
    let '(dem, fs) := save_data s dem (files w) in
    (0%Z, {| can_makedirs := true; files := fs; requests := n |})
  else (1%Z, w).

End Main.

(** ** Sample pages, responses and worlds *)

Module Sample.

Definition document (contents : list PageElement) : PageElement :=
  Tag "[document]" [] ∅ contents.

Definition link (class_ : list string) (txt : string) : PageElement :=
  Tag "a" class_ ∅ [NavigableString txt].

Definition icon (href : string) : PageElement :=
  Tag "li" [] ∅ [Tag "a" [] {["href" := href]} []].

(** A list of social icons, one item for each link. *)
Definition social_icons (hrefs : list string) : PageElement :=
  Tag "ul" ["social-icons"] ∅ (icon <$> hrefs).

(** The social icons of the spec's example: Facebook, Twitter and a link
    to neither. *)
Definition icons : PageElement :=
  social_icons
    [ "https://facebook.com/x"; "https://twitter.com/y";
      "https://example.org/z" ].

(** A home page with a headline, two featured headlines, one recent
    headline and the three social icons of the spec's example. *)
Definition home_markup : string :=
  "<a class='frontpage-link'> Penn wins </a>" +:+
  "<div class='special-edition'>" +:+
  "<a class='frontpage-link standard-link'> First </a></div>" +:+
  "<div class='special-edition'>" +:+
  "<a class='frontpage-link standard-link'>Second</a></div>" +:+
  "<div class='story sidebar-story'> Recent <b>one</b> </div>" +:+
  "<ul class='social-icons'>" +:+
  "<li><a href='https://facebook.com/x'></a></li>" +:+
  "<li><a href='https://twitter.com/y'></a></li>" +:+
  "<li><a href='https://example.org/z'></a></li></ul>".

Definition home : PageElement :=
  document
    [ link ["frontpage-link"] " Penn wins ";
      Tag "div" ["special-edition"] ∅
        [link ["frontpage-link"; "standard-link"] " First "];
      Tag "div" ["special-edition"] ∅
        [link ["frontpage-link"; "standard-link"] "Second"];
      Tag "div" ["story"; "sidebar-story"] ∅
        [NavigableString " Recent "; Tag "b" [] ∅ [NavigableString "one"];
         NavigableString " "];
      icons ].

(** A later edition of the page: another headline, one featured headline
    without its link, no recent headline. *)
Definition later_markup : string :=
  "<a class='frontpage-link'>Quakers lose</a>" +:+
  "<div class='special-edition'><p>Soon</p></div>" +:+
  "<ul class='social-icons'></ul>".

Definition later : PageElement :=
  document
    [ link ["frontpage-link"] "Quakers lose";
      Tag "div" ["special-edition"] ∅
        [Tag "p" [] ∅ [NavigableString "Soon"]];
      Tag "ul" ["social-icons"] ∅ [] ].

(** A page with none of the elements the scraper looks for. *)
Definition bare_markup : string := "<p>Maintenance</p>".

Definition bare : PageElement :=
  document [Tag "p" [] ∅ [NavigableString "Maintenance"]].

(** A page with the headline and the social icons only. *)
Definition plain_markup : string :=
  "<a class='frontpage-link'>Quakers lose</a>" +:+
  "<ul class='social-icons'></ul>".

Definition plain : PageElement :=
  document
    [ link ["frontpage-link"] "Quakers lose";
      Tag "ul" ["social-icons"] ∅ [] ].

(** [html.parser] on the markups above; any other markup is read as the
    empty document, which no sample uses. *)
Definition html_parser (markup : string) : PageElement :=
  if String.eqb markup home_markup then home
  else if String.eqb markup later_markup then later
  else if String.eqb markup bare_markup then bare
  else if String.eqb markup plain_markup then plain
  else document [].

Definition page (markup : string) : Response :=
  {| ok := true; status_code := 200; text := markup |}.

Definition unavailable : Response :=
  {| ok := false; status_code := 503; text := "" |}.

(** A network that answers every request with [r]. *)
Definition serve (r : Response) : string → nat → outcome :=
  fun _ _ => Responds r.

(** A network that answers the [n]-th request with the [n]-th response of
    [rs], and cannot be reached after that. *)
Definition replay (rs : list Response) : string → nat → outcome :=
  fun _ n =>
    match rs !! n with
    | Some r => Responds r
    | None => Fails
    end.

Definition path : string := "data/daily_pennsylvanian_headlines.json".

(** The store of a day before: one entry, a headline. *)
Definition yesterday : gmap string value :=
  {[ "2024-2-29" := VStr "Penn wins" ]}.

Definition world : World :=
  {| can_makedirs := true;
     files := {[ path := Json yesterday ]};
     requests := 0 |}.

(** The key of the day of the sample runs. *)
Definition day : string := "2024-3-1".

(** The value a run stores when every fetch is unsuccessful: the three
    empty results. *)
Definition nothing_found : value :=
  VDict {[ "featured_headlines" := VList [];
           "recent_headlines" := VList [];
           "social_links" := VDict ∅ ]}.

End Sample.

(** ** [print_tree] *)

(** The string operations [print_tree] uses. *)
Module StrOps.

(** [s.replace(old, new)] for [old] that is not empty: the occurrences of
    [old] are found from the left and do not overlap; [skip] counts the
    characters of an occurrence that are still to be passed over. *)
Fixpoint replace_go (old new : string) (skip : nat) (s : string) : string :=
  match s with
  | EmptyString => EmptyString
  | String c s' =>
      match skip with
      | S k => replace_go old new k s'
      | O =>
          if String.prefix old s
          then new +:+ replace_go old new (String.length old - 1) s'
          else String c (replace_go old new 0 s')
      end
  end.

(** [new] before every character of [s] and after the last: what
    [s.replace("", new)] gives. *)
Fixpoint interleave (new s : string) : string :=
  match s with
  | EmptyString => new
  | String c s' => new +:+ String c (interleave new s')
  end.

(** [s.replace(old, new)] *)
Definition replace (old new s : string) : string :=
  match old with
  | EmptyString => interleave new s
  | _ => replace_go old new 0 s
  end.

(** [s.count(sub)] for [sub] that is not empty: the occurrences that do not
    overlap, found from the left. *)
Fixpoint count_go (sub : string) (skip : nat) (s : string) : nat :=
  match s with
  | EmptyString => 0
  | String c s' =>
      match skip with
      | S k => count_go sub k s'
      | O =>
          if String.prefix sub s
          then S (count_go sub (String.length sub - 1) s')
          else count_go sub 0 s'
      end
  end.

(** [s.count(sub)] *)
Definition count (sub s : string) : nat :=
  match sub with
  | EmptyString => S (String.length s)
  | _ => count_go sub 0 s
  end.

(** [s * n] *)
Fixpoint times (s : string) (n : nat) : string :=
  match n with
  | O => EmptyString
  | S n' => s +:+ times s n'
  end.

End StrOps.

(** [os.sep] and the functions of [os.path] on a POSIX system. *)
Module OsPath.

Definition sep : string := "/".

(** [os.path.join(a, b)] *)
Definition join (a b : string) : string :=
  if String.prefix sep b then b
  else
    match Str.final a with
    | None => a +:+ b
    | Some c => if Ascii.eqb c "/" then a +:+ b else a +:+ sep +:+ b
    end.

(** [os.path.basename(p)]: what follows the last separator. *)
Fixpoint basename (p : string) : string :=
  match p with
  | EmptyString => EmptyString
  | String c p' =>
      if Str.contains sep p' then basename p'
      else if Ascii.eqb c "/" then p' else p
  end.

End OsPath.

(** A directory on disk: its subdirectories, by name, and the names of its
    files, in the order [os.scandir] lists them. Symbolic links to
    directories, which [os.walk] lists and does not follow, are left out. *)
Inductive Folder : Type :=
| mkFolder (dirs : list (string * Folder)) (files : list string).

(** [os.walk(top)] as the loop of [print_tree] drives it: the triples it
    yields, top down. The loop assigns [dirs[:]] the names that are not in
    [ignore_dirs], and the walk goes on into the directories left in that
    list only. *)
Fixpoint os_walk (ignore_dirs : list string) (top : string) (t : Folder)
  : list (string * list string * list string) :=
  match t with
  | mkFolder dirs files =>
      (top, fst <$> dirs, files)
      :: flat_map
           (fun d =>
              if bool_decide (fst d ∈ ignore_dirs) then []
              else os_walk ignore_dirs (OsPath.join top (fst d)) (snd d))
           dirs
  end.

(** The messages one turn of the loop logs (lines 179-184). *)
Definition log_turn (directory : string)
    (turn : string * list string * list string) : list string :=
  let '(root, dirs, files) := turn in
  let level :=
    StrOps.count OsPath.sep (StrOps.replace directory "" root) in
  let indent := StrOps.times (StrOps.times " " 4) level in
  let sub_indent := StrOps.times (StrOps.times " " 4) (level + 1) in
  (indent +:+ "+--" +:+ OsPath.basename root +:+ "/")
  :: map (fun file => sub_indent +:+ "+--" +:+ file) files.

(** [print_tree(directory, ignore_dirs)] on a disk that holds [t] at
    [directory]: the messages it logs, in order. *)
Definition print_tree (directory : string) (ignore_dirs : list string)
    (t : Folder) : list string :=
  ("Printing tree of files/dirs at " +:+ directory)
  :: flat_map (log_turn directory) (os_walk ignore_dirs directory t).

(** The default of [ignore_dirs]. *)
Definition default_ignore_dirs : list string := [".git"; "__pycache__"].

(** What is left of a directory once the subdirectories named in
    [ignore_dirs] are removed, at every depth; the files all stay. *)
Fixpoint prune (ignore_dirs : list string) (t : Folder) : Folder :=
  match t with
  | mkFolder dirs files =>
      mkFolder
        (flat_map
           (fun d =>
              if bool_decide (fst d ∈ ignore_dirs) then []
              else [(fst d, prune ignore_dirs (snd d))])
           dirs)
        files
  end.

(** The names of the directories below the top of a tree, at any depth. *)
Fixpoint dir_names (t : Folder) : list string :=
  match t with
  | mkFolder dirs _ => flat_map (fun d => fst d :: dir_names (snd d)) dirs
  end.

(** The directories the walk visits, top down: each with the names on the
    way to it from the top, and with its files. *)
Fixpoint listing (ignore_dirs : list string) (above : list string)
    (t : Folder) : list (list string * list string) :=
  match t with
  | mkFolder dirs files =>
      (above, files)
      :: flat_map
           (fun d =>
              if bool_decide (fst d ∈ ignore_dirs) then []
              else listing ignore_dirs (above ++ [fst d]) (snd d))
           dirs
  end.

(** The path of a directory below the top: a separator before each name. *)
Fixpoint relative (names : list string) : string :=
  match names with
  | [] => ""
  | name :: names' => OsPath.sep +:+ name +:+ relative names'
  end.

(** A tree drawn by depth: a directory that is [depth] names below the top
    is indented by [4 * depth] spaces, its files by four more. *)
Definition draw (directory : string) (entry : list string * list string)
  : list string :=
  let '(names, files) := entry in
  let depth := length names in
  (StrOps.times " " (4 * depth) +:+ "+--"
     +:+ default (OsPath.basename directory) (last names) +:+ "/")
  :: map (fun file => StrOps.times " " (4 * (depth + 1)) +:+ "+--" +:+ file)
       files.

(** A name a directory can have: not empty, no separator in it. *)
Definition proper_name (name : string) : bool :=
  negb (String.eqb name "") && negb (Str.contains OsPath.sep name).

Fixpoint proper (t : Folder) : bool :=
  match t with
  | mkFolder dirs _ =>
      forallb (fun d => proper_name (fst d) && proper (snd d)) dirs
  end.

(** A path that does not end with the separator. *)
Definition open_ended (p : string) : Prop :=
  ∃ c, Str.final p = Some c ∧ c ≠ "/"%char.

(** A checkout of the repository after a run, and a directory whose own
    name comes back below it. *)
Module Disk.

Definition checkout : Folder :=
  mkFolder
    [ (".git", mkFolder [("objects", mkFolder [] ["pack"])] ["HEAD"]);
      ("data", mkFolder [] ["daily_pennsylvanian_headlines.json"]);
      ("src", mkFolder [("__pycache__", mkFolder [] ["script.pyc"])]
                ["script.py"]) ]
    ["README.md"; "scrape.log"].

Definition nested : Folder :=
  mkFolder [("x", mkFolder [("a", mkFolder [] ["f"])] [])] [].

End Disk.

(** ** A page with a list item that has no link *)

Module Broken.

Definition no_link_markup : string :=
  "<ul class='social-icons'><li>Follow us</li>" +:+
  "<li><a href='https://twitter.com/y'></a></li></ul>".

Definition no_link : PageElement :=
  Sample.document
    [ Tag "ul" ["social-icons"] ∅
        [ Tag "li" [] ∅ [NavigableString "Follow us"];
          Sample.icon "https://twitter.com/y" ] ].

(** [html.parser] on the markup above and on those of [Sample]. *)
Definition html_parser (markup : string) : PageElement :=
  if String.eqb markup no_link_markup then no_link
  else Sample.html_parser markup.

End Broken.

(** * Properties *)

(** ** What [strip] returns *)

Module StrFacts.
Import Str.

Lemma app_cons c s t : String c s +:+ t = String c (s +:+ t).
Proof. reflexivity. Qed.

Lemma app_empty_r s : s +:+ "" = s.
Proof. induction s as [|c s IH]; [done|]. by rewrite app_cons, IH. Qed.

(** [lstrip] removes a blank prefix, and what is left does not start with
    white space. *)
Lemma lstrip_split s : ∃ pre, s = pre +:+ lstrip s ∧ blank pre = true.
Proof.
  induction s as [|c s (pre & Hs & Hpre)]; simpl.
  - by exists "".
  - destruct (isspace c) eqn:Hc.
    + exists (String c pre). rewrite app_cons, <- Hs. simpl. by rewrite Hc, Hpre.
    + by exists "".
Qed.

Lemma lstrip_first s c : first (lstrip s) = Some c → isspace c = false.
Proof.
  induction s as [|a s IH]; simpl; [done|].
  destruct (isspace a) eqn:Ha; [done|]. simpl. by intros [= <-].
Qed.

Lemma lstrip_id s : (∀ c, first s = Some c → isspace c = false) → lstrip s = s.
Proof.
  destruct s as [|a s]; simpl; [done|]. intros H. by rewrite (H a eq_refl).
Qed.

(** [rstrip] removes a blank suffix, and what is left does not end with
    white space. *)
Lemma rstrip_split s : ∃ post, s = rstrip s +:+ post ∧ blank post = true.
Proof.
  induction s as [|c s (post & Hs & Hpost)]; simpl.
  - by exists "".
  - destruct (rstrip s) as [|b t] eqn:Hr.
    + destruct (isspace c) eqn:Hc.
      * exists (String c s). split; [done|]. simpl. rewrite Hc. simpl.
        rewrite Hs. done.
      * exists post. by rewrite !app_cons, <- Hs.
    + exists post. by rewrite app_cons, <- Hs.
Qed.

Lemma rstrip_final s c : final (rstrip s) = Some c → isspace c = false.
Proof.
  induction s as [|a s IH]; simpl; [done|].
  destruct (rstrip s) as [|b t] eqn:Hr.
  - destruct (isspace a) eqn:Ha; simpl; [done|]. by intros [= <-].
  - simpl. simpl in IH. done.
Qed.

Lemma rstrip_first s c : first (rstrip s) = Some c → first s = Some c.
Proof.
  destruct s as [|a s]; simpl; [done|].
  destruct (rstrip s); [destruct (isspace a)|]; simpl; done.
Qed.

Lemma rstrip_id s : (∀ c, final s = Some c → isspace c = false) → rstrip s = s.
Proof.
  induction s as [|a s IH]; simpl; [done|]. intros H.
  destruct s as [|b s].
  - simpl. by rewrite (H a eq_refl).
  - rewrite IH by done. done.
Qed.

(** The trimmed text: [s] is [strip s] between two blank strings, and
    [strip s] neither starts nor ends with white space. *)
Lemma strip_split s :
  ∃ pre post, s = pre +:+ strip s +:+ post
              ∧ blank pre = true ∧ blank post = true.
Proof.
  destruct (lstrip_split s) as (pre & Hs & Hpre).
  destruct (rstrip_split (lstrip s)) as (post & Hl & Hpost).
  exists pre, post. unfold strip. by rewrite <- Hl.
Qed.

Lemma strip_first s c : first (strip s) = Some c → isspace c = false.
Proof. intros H. by apply (lstrip_first s), rstrip_first. Qed.

Lemma strip_final s c : final (strip s) = Some c → isspace c = false.
Proof. apply rstrip_final. Qed.

Lemma strip_idemp s : strip (strip s) = strip s.
Proof.
  unfold strip at 1. rewrite (lstrip_id (strip s)) by apply strip_first.
  apply rstrip_id, strip_final.
Qed.

(** [contains sub s] holds exactly when [sub] occurs in [s]. *)
Lemma prefix_split sub s :
  String.prefix sub s = true ↔ ∃ post, s = sub +:+ post.
Proof.
  revert s. induction sub as [|a sub IH]; intros [|b s]; simpl.
  - split; [by exists ""|done].
  - split; [by exists (String b s)|done].
  - split; [done|]. intros [post Hp]. by rewrite app_cons in Hp.
  - destruct (ascii_dec a b) as [->|Hab].
    + rewrite IH. split; intros [post Hp]; exists post.
      * by rewrite app_cons, <- Hp.
      * rewrite app_cons in Hp. congruence.
    + split; [done|]. intros [post Hp]. rewrite app_cons in Hp. congruence.
Qed.

Lemma contains_spec sub s :
  contains sub s = true ↔ ∃ pre post, s = pre +:+ sub +:+ post.
Proof.
  induction s as [|c s IH].
  - cbn [contains]. rewrite orb_false_r, prefix_split. split.
    + intros [post ->]. by exists "", post.
    + intros (pre & post & H). destruct pre as [|a pre]; [by exists post|].
      by rewrite app_cons in H.
  - cbn [contains]. rewrite orb_true_iff, prefix_split, IH. split.
    + intros [[post ->]|(pre & post & ->)].
      * by exists "", post.
      * by exists (String c pre), post.
    + intros (pre & post & H). destruct pre as [|a pre].
      * left. by exists post.
      * right. exists pre, post. rewrite app_cons in H. congruence.
Qed.

End StrFacts.

(** ** Searching a tree *)

Module SoupFacts.
Import Soup.

(** Document order: a tag's descendants are its first child, what is below
    that child, then the descendants through the later children. *)
Lemma descendants_cons name cls attrs c cs :
  descendants (Tag name cls attrs (c :: cs))
  = c :: descendants c ++ descendants (Tag name cls attrs cs).
Proof. reflexivity. Qed.

Lemma head_filter_None {A} (P : A → bool) (l : list A) :
  head (List.filter P l) = None ↔ Forall (λ x, P x = false) l.
Proof.
  induction l as [|x l IH]; simpl.
  - split; [constructor|done].
  - destruct (P x) eqn:Hx; simpl.
    + split; [done|]. intros H. inversion H; congruence.
    + rewrite IH. split; [by constructor|]. intros H. by inversion H.
Qed.

Lemma head_filter_Some {A} (P : A → bool) (l : list A) (e : A) :
  head (List.filter P l) = Some e
  ↔ ∃ before after,
      l = before ++ e :: after ∧ P e = true
      ∧ Forall (λ x, P x = false) before.
Proof.
  induction l as [|x l IH]; simpl.
  - split; [done|]. intros (before & after & H & _). by destruct before.
  - destruct (P x) eqn:Hx; simpl.
    + split.
      * intros [= ->]. exists [], l. by repeat split.
      * intros (before & after & H & He & Hb).
        destruct before as [|y before]; injection H as -> H; [done|].
        inversion Hb; congruence.
    + rewrite IH. split.
      * intros (before & after & -> & He & Hb).
        exists (x :: before), after. repeat split; [done|by constructor].
      * intros (before & after & H & He & Hb).
        destruct before as [|y before]; injection H as -> H; [congruence|].
        exists before, after. repeat split; [done..|]. by inversion Hb.
Qed.

(** [findAll] keeps the matching descendants in document order, and
    [find] returns the first of them. *)
Lemma findAll_sublist name q e : sublist (findAll name q e) (descendants e).
Proof. unfold findAll. induction (descendants e) as [|x l IH]; simpl.
  - constructor.
  - destruct (matches name q x); by constructor.
Qed.

Lemma findAll_elem name q e d :
  d ∈ findAll name q e ↔ d ∈ descendants e ∧ matches name q d = true.
Proof.
  unfold findAll. rewrite !list_elem_of_In, filter_In. done.
Qed.

Lemma find_None name q e :
  find name q e = None
  ↔ Forall (λ d, matches name q d = false) (descendants e).
Proof. apply head_filter_None. Qed.

Lemma find_Some name q e d :
  find name q e = Some d
  ↔ ∃ before after,
      descendants e = before ++ d :: after ∧ matches name q d = true
      ∧ Forall (λ x, matches name q x = false) before.
Proof. apply head_filter_Some. Qed.

Lemma find_head name q e : find name q e = head (findAll name q e).
Proof. reflexivity. Qed.

End SoupFacts.

(** ** Comprehensions and loops that may raise *)

Lemma comprehension_getattr_Some {A B} (f : A → B) (l : list (option A)) :
  Forall is_Some l →
  ∃ ys, comprehension (λ a, getattr a f) l = Return ys
        ∧ Forall2 (λ a y, ∃ e, a = Some e ∧ y = f e) l ys.
Proof.
  induction 1 as [|a l [e ->] _ (ys & Hys & Hall)]; simpl.
  - exists []. by split; [|constructor].
  - rewrite Hys. exists (f e :: ys). split; [done|]. constructor; eauto.
Qed.

Lemma comprehension_getattr_None {A B} (f : A → B) (l : list (option A)) :
  None ∈ l → comprehension (λ a, getattr a f) l = Raise AttributeError.
Proof.
  induction l as [|[e|] l IH]; simpl.
  - by intros ?%elem_of_nil.
  - intros [?|Hin]%elem_of_cons; [done|]. by rewrite IH.
  - done.
Qed.

(** ** One request for each scraping function *)

Section ScraperFacts.

Variable BeautifulSoup : string → PageElement.
Variable network : string → nat → outcome.

Abbreviation url := "https://www.thedp.com" (only parsing).

Ltac get_response H :=
  unfold scrape_data_point, scrape_featured_headlines,
    scrape_most_recent_headlines, scrape_social_media_links,
    bind, requests_get;
  rewrite H.

Lemma scrape_data_point_responds n r :
  network url n = Responds r →
  scrape_data_point BeautifulSoup network n
  = (Return
       (if ok r
        then Some (from_option Soup.text ""
                     (Soup.find "a" (Some "frontpage-link")
                        (BeautifulSoup (text r))))
        else None),
     S n).
Proof.
  intros H. get_response H. destruct (ok r); [|done].
  by destruct (Soup.find _ _ _).
Qed.

Lemma scrape_featured_headlines_responds n r :
  network url n = Responds r →
  scrape_featured_headlines BeautifulSoup network n
  = (if ok r
     then comprehension (λ a, getattr a (λ e, Str.strip (Soup.text e)))
            (map (Soup.find "a" (Some "frontpage-link standard-link"))
               (Soup.findAll "div" (Some "special-edition")
                  (BeautifulSoup (text r))))
     else Return [],
     S n).
Proof.
  intros H. get_response H. destruct (ok r); [|done].
  unfold lift, ret. by destruct (comprehension _ _).
Qed.

Lemma scrape_most_recent_headlines_responds n r :
  network url n = Responds r →
  scrape_most_recent_headlines BeautifulSoup network n
  = (Return
       (if ok r
        then map (λ a, Str.strip (Soup.text a))
               (Soup.findAll "div" (Some "story sidebar-story")
                  (BeautifulSoup (text r)))
        else []),
     S n).
Proof. intros H. get_response H. by destruct (ok r). Qed.

Lemma scrape_social_media_links_responds n r :
  network url n = Responds r →
  scrape_social_media_links BeautifulSoup network n
  = (if ok r
     then match Soup.find "ul" (Some "social-icons") (BeautifulSoup (text r)) with
          | None => Raise AttributeError
          | Some ul =>
              match collect_links (Soup.findAll "li" None ul) [] with
              | Raise e => Raise e
              | Return links => Return (fold_left classify links ∅)
              end
          end
     else Return ∅,
     S n).
Proof.
  intros H. get_response H. destruct (ok r); [|done].
  unfold lift, ret. destruct (Soup.find _ _ _) as [ul|]; [|done]. simpl.
  by destruct (collect_links _ _).
Qed.

(** Whatever the network answers, each function makes exactly one request. *)
Lemma scrape_data_point_requests n :
  snd (scrape_data_point BeautifulSoup network n) = S n.
Proof.
  destruct (network url n) as [r|] eqn:H.
  - by rewrite (scrape_data_point_responds n r H).
  - get_response H. done.
Qed.

Lemma scrape_featured_headlines_requests n :
  snd (scrape_featured_headlines BeautifulSoup network n) = S n.
Proof.
  destruct (network url n) as [r|] eqn:H.
  - by rewrite (scrape_featured_headlines_responds n r H).
  - get_response H. done.
Qed.

Lemma scrape_most_recent_headlines_requests n :
  snd (scrape_most_recent_headlines BeautifulSoup network n) = S n.
Proof.
  destruct (network url n) as [r|] eqn:H.
  - by rewrite (scrape_most_recent_headlines_responds n r H).
  - get_response H. done.
Qed.

Lemma scrape_social_media_links_requests n :
  snd (scrape_social_media_links BeautifulSoup network n) = S n.
Proof.
  destruct (network url n) as [r|] eqn:H.
  - by rewrite (scrape_social_media_links_responds n r H).
  - get_response H. done.
Qed.

End ScraperFacts.

(** ** The extractors *)

Section Extractors.

Variable BeautifulSoup : string → PageElement.
Variable network : string → nat → outcome.

Abbreviation url := "https://www.thedp.com" (only parsing).

(** C3, as amended. On a fetched response [scrape_data_point] does not
    raise. When the response is successful and the document has a tag [a]
    of class [frontpage-link], it returns the text of the first one as it
    stands, white space included; when the document has none, it returns
    the empty string; when the response is not successful it returns
    [None], not the empty string. *)
Theorem scrape_data_point_text n r :
  network url n = Responds r →
  let soup := BeautifulSoup (text r) in
  let target_element := Soup.find "a" (Some "frontpage-link") soup in
  let returned := scrape_data_point BeautifulSoup network n in
  (ok r = true → ∀ e, target_element = Some e →
     returned = (Return (Some (Soup.text e)), S n))
  ∧ (ok r = true → target_element = None →
     returned = (Return (Some ""), S n))
  ∧ (ok r = false → returned = (Return None, S n)).
Proof.
  intros H. cbv zeta. rewrite (scrape_data_point_responds _ _ n r H).
  repeat split.
  - by intros -> e ->.
  - by intros -> ->.
  - by intros ->.
Qed.

(** C4. On a successful response whose document has [N] [div]s of class
    [special-edition], each with a link of class
    [frontpage-link standard-link] below it, [scrape_featured_headlines]
    returns [N] strings: the [i]-th is the trimmed text of the first such
    link of the [i]-th container in document order. *)
Theorem scrape_featured_headlines_one_per_container n r :
  network url n = Responds r →
  ok r = true →
  let target_divs :=
    Soup.findAll "div" (Some "special-edition") (BeautifulSoup (text r)) in
  Forall (λ item,
      is_Some (Soup.find "a" (Some "frontpage-link standard-link") item))
    target_divs →
  ∃ formatted_titles,
    scrape_featured_headlines BeautifulSoup network n
    = (Return formatted_titles, S n)
    ∧ length formatted_titles = length target_divs
    ∧ ∀ i item, target_divs !! i = Some item →
        ∃ a, Soup.find "a" (Some "frontpage-link standard-link") item = Some a
             ∧ formatted_titles !! i = Some (Str.strip (Soup.text a)).
Proof.
  intros H Hok target_divs Hall.
  rewrite (scrape_featured_headlines_responds _ _ n r H), Hok.
  fold target_divs.
  destruct (comprehension_getattr_Some (λ e, Str.strip (Soup.text e))
              (map (Soup.find "a" (Some "frontpage-link standard-link"))
                 target_divs)) as (titles & -> & Hrel).
  { by apply Forall_fmap. }
  exists titles. split; [done|].
  apply Forall2_fmap_l in Hrel. split.
  - symmetry. by eapply Forall2_length.
  - intros i item Hi.
    destruct (Forall2_lookup_l _ _ _ _ _ Hrel Hi) as (t & Ht & e & He & ->).
    eauto.
Qed.

(** C5. On a successful response whose document has a [div] of class
    [special-edition] without such a link below it,
    [scrape_featured_headlines] raises [AttributeError]: the container is
    not skipped and no list is returned. *)
Theorem scrape_featured_headlines_missing_link n r :
  network url n = Responds r →
  ok r = true →
  Exists (λ item,
      Soup.find "a" (Some "frontpage-link standard-link") item = None)
    (Soup.findAll "div" (Some "special-edition") (BeautifulSoup (text r))) →
  scrape_featured_headlines BeautifulSoup network n
  = (Raise AttributeError, S n).
Proof.
  intros H Hok Hex.
  rewrite (scrape_featured_headlines_responds _ _ n r H), Hok.
  rewrite comprehension_getattr_None; [done|].
  apply Exists_exists in Hex as (item & Hin & Hnone).
  apply list_elem_of_fmap. by exists item.
Qed.

(** C6. On a successful response [scrape_most_recent_headlines] returns one
    string for each [div] of class [story sidebar-story], the [i]-th being
    the trimmed text of the [i]-th container in document order; without
    such a container it returns the empty list. It does not raise. *)
Theorem scrape_most_recent_headlines_trimmed n r :
  network url n = Responds r →
  ok r = true →
  let target_div_items :=
    Soup.findAll "div" (Some "story sidebar-story") (BeautifulSoup (text r)) in
  ∃ formatted_titles,
    scrape_most_recent_headlines BeautifulSoup network n
    = (Return formatted_titles, S n)
    ∧ length formatted_titles = length target_div_items
    ∧ (∀ i a, target_div_items !! i = Some a →
         formatted_titles !! i = Some (Str.strip (Soup.text a)))
    ∧ (target_div_items = [] → formatted_titles = []).
Proof.
  intros H Hok target_div_items.
  rewrite (scrape_most_recent_headlines_responds _ _ n r H), Hok.
  fold target_div_items. eexists. split; [done|]. repeat split.
  - apply length_map.
  - intros i a Hi. by rewrite list_lookup_fmap, Hi.
  - by intros ->.
Qed.

(** C8. On a successful response whose document has no [ul] of class
    [social-icons], [scrape_social_media_links] raises [AttributeError]
    (the call of [findAll] on [None]); it does not return an empty
    mapping. *)
Theorem scrape_social_media_links_no_container n r :
  network url n = Responds r →
  ok r = true →
  Soup.find "ul" (Some "social-icons") (BeautifulSoup (text r)) = None →
  scrape_social_media_links BeautifulSoup network n
  = (Raise AttributeError, S n).
Proof.
  intros H Hok Hul.
  by rewrite (scrape_social_media_links_responds _ _ n r H), Hok, Hul.
Qed.

End Extractors.

(** ** The social links *)

Lemma classify_platform (formatted_output : gmap string string) link :
  classify formatted_output link
  = match platform link with
    | Some key => <[key := link]> formatted_output
    | None => formatted_output
    end.
Proof.
  unfold classify, platform.
  by repeat destruct (Str.contains _ link).
Qed.

(** A link is filed under one of the three keys exactly when it contains
    the matching domain and none of the domains tested before it. *)
Lemma platform_Some link key :
  platform link = Some key
  ↔ (key = "facebook" ∧ Str.contains "facebook.com" link = true)
    ∨ (key = "twitter" ∧ Str.contains "facebook.com" link = false
       ∧ Str.contains "twitter.com" link = true)
    ∨ (key = "instagram" ∧ Str.contains "facebook.com" link = false
       ∧ Str.contains "twitter.com" link = false
       ∧ Str.contains "instagram.com" link = true).
Proof.
  unfold platform.
  destruct (Str.contains "facebook.com" link),
    (Str.contains "twitter.com" link),
    (Str.contains "instagram.com" link); intuition congruence.
Qed.

Lemma platform_None link :
  platform link = None
  ↔ Str.contains "facebook.com" link = false
    ∧ Str.contains "twitter.com" link = false
    ∧ Str.contains "instagram.com" link = false.
Proof.
  unfold platform.
  destruct (Str.contains "facebook.com" link),
    (Str.contains "twitter.com" link),
    (Str.contains "instagram.com" link); intuition congruence.
Qed.

(** After the second loop a key holds the last link filed under it, and
    keeps what it held before when no link is. *)
Lemma fold_classify_lookup links (formatted_output : gmap string string) key :
  fold_left classify links formatted_output !! key
  = match last (filter (λ link, platform link = Some key) links) with
    | Some link => Some link
    | None => formatted_output !! key
    end.
Proof.
  induction links as [|link links IH] using rev_ind; [done|].
  rewrite fold_left_app, filter_app. simpl.
  rewrite classify_platform.
  destruct (decide (platform link = Some key)) as [Heq|Hne].
  - rewrite Heq, lookup_insert_eq.
    rewrite filter_cons_True by done. by rewrite filter_nil, last_snoc.
  - rewrite filter_cons_False by done. rewrite filter_nil, app_nil_r.
    destruct (platform link) as [key'|]; [|done].
    rewrite lookup_insert_ne by congruence. done.
Qed.

Lemma collect_links_href_of target_li links :
  Forall (λ li, is_Some (Soup.find "a" None li)) target_li →
  collect_links target_li links = Return (links ++ omap href_of target_li).
Proof.
  intros Hall. revert links.
  induction Hall as [|li rest [a Ha] _ IH]; intros links; simpl.
  - by rewrite app_nil_r.
  - unfold href_of. rewrite Ha. simpl.
    destruct (Soup.get "href" a) as [[|c s]|]; simpl; rewrite IH; [done| |done].
    by rewrite <- app_assoc.
Qed.

Lemma last_filter_Some {A} (P : A → Prop) `{!∀ x, Decision (P x)}
    (l : list A) (x : A) :
  last (filter P l) = Some x → P x ∧ x ∈ l.
Proof. intros Hlast%last_Some_elem_of. by apply list_elem_of_filter in Hlast. Qed.

(** C7. The example of the spec: when the list of social icons holds links
    to [https://facebook.com/x] and [https://twitter.com/y] and a third
    link that contains none of the three domains,
    [scrape_social_media_links] returns the mapping with the keys
    [facebook] and [twitter] and no other. In general, when the [ul] of
    class [social-icons] is there and each of its items has a link, every
    key of the result holds the last link, in document order, that is
    filed under it ([platform]: the first of the three domains the link
    contains), so a later link replaces an earlier one of the same
    platform, a link that contains none of the domains is dropped, and no
    key other than the three appears. *)
Theorem scrape_social_media_links_classified :
  (∀ BeautifulSoup network n r other,
     network "https://www.thedp.com" n = Responds r →
     ok r = true →
     Soup.find "ul" (Some "social-icons") (BeautifulSoup (text r))
     = Some (Sample.social_icons
               ["https://facebook.com/x"; "https://twitter.com/y"; other]) →
     platform other = None →
     scrape_social_media_links BeautifulSoup network n
     = (Return {[ "facebook" := "https://facebook.com/x";
                  "twitter" := "https://twitter.com/y" ]}, S n))
  ∧ (∀ BeautifulSoup network n r target_ul,
       network "https://www.thedp.com" n = Responds r →
       ok r = true →
       Soup.find "ul" (Some "social-icons") (BeautifulSoup (text r))
       = Some target_ul →
       let target_li := Soup.findAll "li" None target_ul in
       Forall (λ li, is_Some (Soup.find "a" None li)) target_li →
       ∃ formatted_output,
         scrape_social_media_links BeautifulSoup network n
         = (Return formatted_output, S n)
         ∧ (∀ key,
              formatted_output !! key
              = last (filter (λ link, platform link = Some key)
                        (omap href_of target_li)))
         ∧ (∀ key, is_Some (formatted_output !! key) →
              key ∈ ["facebook"; "twitter"; "instagram"])).
Proof.
  split.
  - intros BeautifulSoup network n r other H Hok Hul Hother.
    rewrite (scrape_social_media_links_responds _ _ n r H), Hok, Hul.
    destruct other as [|c other].
    + vm_compute. reflexivity.
    + change (collect_links _ _)
        with (Return (["https://facebook.com/x"; "https://twitter.com/y"]
                      ++ [String c other])).
      cbv iota. rewrite fold_left_app. cbn [fold_left].
      rewrite (classify_platform _ (String c other)), Hother.
      vm_compute. reflexivity.
  - intros BeautifulSoup network n r target_ul H Hok Hul target_li Hall.
    rewrite (scrape_social_media_links_responds _ _ n r H), Hok, Hul.
    fold target_li. rewrite (collect_links_href_of _ _ Hall). simpl.
    eexists. split; [done|].
    assert (∀ key,
      fold_left classify (omap href_of target_li) ∅ !! key
      = last (filter (λ link, platform link = Some key)
                (omap href_of target_li))) as Hkeys.
    { intros key. rewrite fold_classify_lookup, lookup_empty.
      by destruct (last _). }
    split; [done|].
    intros key [link Hlink]. rewrite Hkeys in Hlink.
    apply last_filter_Some in Hlink as [Hp _].
    apply platform_Some in Hp as [[-> _]|[[-> _]|[-> _]]]; set_solver.
Qed.

(** ** The run *)

Section Run.

Variable BeautifulSoup : string → PageElement.
Variable network : string → nat → outcome.
Variable today : string.

Abbreviation url := "https://www.thedp.com" (only parsing).
Abbreviation path := "data/daily_pennsylvanian_headlines.json" (only parsing).

(** What a scraping function returns at request [n] depends on the answer
    to that request alone. *)
Lemma scrape_data_point_local network' n :
  network url n = network' url n →
  scrape_data_point BeautifulSoup network n
  = scrape_data_point BeautifulSoup network' n.
Proof.
  intros H. unfold scrape_data_point, bind, requests_get. by rewrite H.
Qed.

Lemma scrape_featured_headlines_local network' n :
  network url n = network' url n →
  scrape_featured_headlines BeautifulSoup network n
  = scrape_featured_headlines BeautifulSoup network' n.
Proof.
  intros H. unfold scrape_featured_headlines, bind, requests_get. by rewrite H.
Qed.

Lemma scrape_most_recent_headlines_local network' n :
  network url n = network' url n →
  scrape_most_recent_headlines BeautifulSoup network n
  = scrape_most_recent_headlines BeautifulSoup network' n.
Proof.
  intros H. unfold scrape_most_recent_headlines, bind, requests_get.
  by rewrite H.
Qed.

Lemma scrape_social_media_links_local network' n :
  network url n = network' url n →
  scrape_social_media_links BeautifulSoup network n
  = scrape_social_media_links BeautifulSoup network' n.
Proof.
  intros H. unfold scrape_social_media_links, bind, requests_get.
  by rewrite H.
Qed.

(** A computation is its result paired with the requests it has made. *)
Lemma run_eq {A} (m : M A) n a n' :
  fst (m n) = Return a → snd (m n) = n' → m n = (Return a, n').
Proof. destruct (m n). simpl. congruence. Qed.

(** The [try] block makes between one and four requests. *)
Lemma run_scrape_requests n :
  n < snd (run_scrape BeautifulSoup network n) ≤ n + 4.
Proof.
  unfold run_scrape, bind, ret.
  pose proof (scrape_data_point_requests BeautifulSoup network n) as H1.
  destruct (scrape_data_point _ _ n) as [[dp|e] n1]; simpl in *; [|lia].
  pose proof (scrape_featured_headlines_requests BeautifulSoup network n1) as H2.
  destruct (scrape_featured_headlines _ _ n1) as [[fh|e] n2]; simpl in *; [|lia].
  pose proof (scrape_most_recent_headlines_requests BeautifulSoup network n2) as H3.
  destruct (scrape_most_recent_headlines _ _ n2) as [[mr|e] n3]; simpl in *; [|lia].
  pose proof (scrape_social_media_links_requests BeautifulSoup network n3) as H4.
  destruct (scrape_social_media_links _ _ n3) as [[sm|e] n4]; simpl in *; lia.
Qed.

(** The handler groups the results: either all four are [None], or the
    three after the headline are all there. *)
Lemma run_scrape_all_or_nothing n :
  let s := fst (run_scrape BeautifulSoup network n) in
  s = mkScraped None None None None
  ∨ ∃ dp fh mr sm, s = mkScraped dp (Some fh) (Some mr) (Some sm).
Proof.
  unfold run_scrape, bind, ret. simpl.
  destruct (scrape_data_point _ _ n) as [[dp|e] n1]; [|by left].
  destruct (scrape_featured_headlines _ _ n1) as [[fh|e] n2]; [|by left].
  destruct (scrape_most_recent_headlines _ _ n2) as [[mr|e] n3]; [|by left].
  destruct (scrape_social_media_links _ _ n3) as [[sm|e] n4]; [|by left].
  right. by exists dp, fh, mr, sm.
Qed.

(** C2, as amended. The run does not fetch once: each scraping function
    makes a request of its own and parses the answer to it. When none of
    them raises, the run makes four requests, and the headline, the
    featured headlines, the recent headlines and the social links are what
    the four functions return at the first, second, third and fourth
    request. *)
Theorem run_scrape_four_requests n dp fh mr sm :
  fst (scrape_data_point BeautifulSoup network n) = Return dp →
  fst (scrape_featured_headlines BeautifulSoup network (n + 1)) = Return fh →
  fst (scrape_most_recent_headlines BeautifulSoup network (n + 2)) = Return mr →
  fst (scrape_social_media_links BeautifulSoup network (n + 3)) = Return sm →
  run_scrape BeautifulSoup network n
  = (mkScraped dp (Some fh) (Some mr) (Some sm), n + 4).
Proof.
  intros H1 H2 H3 H4. unfold run_scrape, bind, ret.
  rewrite (run_eq _ n dp (n + 1) H1)
    by (rewrite scrape_data_point_requests; lia).
  rewrite (run_eq _ (n + 1) fh (n + 2) H2)
    by (rewrite scrape_featured_headlines_requests; lia).
  rewrite (run_eq _ (n + 2) mr (n + 3) H3)
    by (rewrite scrape_most_recent_headlines_requests; lia).
  rewrite (run_eq _ (n + 3) sm (n + 4) H4)
    by (rewrite scrape_social_media_links_requests; lia).
  done.
Qed.

(** When every answer is unsuccessful, the headline is [None] and the three
    other results are empty. *)
Lemma run_scrape_unsuccessful n :
  (∀ k, ∃ r, network url k = Responds r ∧ ok r = false) →
  run_scrape BeautifulSoup network n
  = (mkScraped None (Some []) (Some []) (Some ∅), n + 4).
Proof.
  intros Hdown. unfold run_scrape, bind, ret.
  destruct (Hdown n) as (r0 & H0 & Hok0).
  destruct (Hdown (S n)) as (r1 & H1 & Hok1).
  destruct (Hdown (S (S n))) as (r2 & H2 & Hok2).
  destruct (Hdown (S (S (S n)))) as (r3 & H3 & Hok3).
  rewrite (scrape_data_point_responds _ _ _ _ H0), Hok0.
  rewrite (scrape_featured_headlines_responds _ _ _ _ H1), Hok1.
  rewrite (scrape_most_recent_headlines_responds _ _ _ _ H2), Hok2.
  rewrite (scrape_social_media_links_responds _ _ _ _ H3), Hok3.
  do 2 f_equal. lia.
Qed.

(** What the monitor and its file hold after the writes of lines 153-172:
    the mapping built from the results under the key of the day, whether
    or not the headline was written before it. *)
Lemma save_data_writes s dem fs :
  save_data today s dem fs
  = (let dem' :=
       {| file_path := file_path dem;
          data := <[today := VDict (build_my_out s)]> (data dem) |} in
     (dem', <[file_path dem := Json (data dem')]> fs)).
Proof.
  unfold save_data, Monitor.add_today, Monitor.save.
  destruct (data_point s) as [d|]; simpl; [|done].
  by rewrite !insert_insert_eq.
Qed.

Lemma main_runs w :
  can_makedirs w = true →
  main BeautifulSoup network today w
  = (let '(s, n) := run_scrape BeautifulSoup network (requests w) in
     let d := data (Monitor.load path (files w)) in
     (0%Z,
      {| can_makedirs := true;
         files := <[path := Json (<[today := VDict (build_my_out s)]> d)]>
                    (files w);
         requests := n |})).
Proof.
  intros Hcan. unfold main. rewrite Hcan.
  destruct (run_scrape _ _ _) as [s n]. by rewrite save_data_writes.
Qed.

(** A run that cannot make the directory exits with status 1 and changes
    nothing. *)
Lemma main_no_directory w :
  can_makedirs w = false → main BeautifulSoup network today w = (1%Z, w).
Proof. intros Hcan. unfold main. by rewrite Hcan. Qed.

(** C1, as amended. When every fetch of the run is unsuccessful, the run
    writes no headline, yet it sets the key of the day to the mapping of
    the three empty results (no featured headline, no recent headline, no
    social link) and saves the store with it: the file then holds that
    mapping under the key of the day, and the entries of the other days
    as before. The files are left as they were only when the file already
    held that very mapping under the key of the day. *)
Theorem main_fetch_unsuccessful w :
  can_makedirs w = true →
  (∀ k, ∃ r, network url k = Responds r ∧ ok r = false) →
  let nothing_found :=
    VDict {[ "featured_headlines" := VList [];
             "recent_headlines" := VList [];
             "social_links" := VDict ∅ ]} in
  main BeautifulSoup network today w
  = (0%Z,
     {| can_makedirs := true;
        files :=
          <[path :=
              Json (<[today := nothing_found]>
                      (data (Monitor.load path (files w))))]>
            (files w);
        requests := requests w + 4 |})
  ∧ (files (snd (main BeautifulSoup network today w)) = files w
     ↔ ∃ d, files w !! path = Some (Json d)
            ∧ d !! today = Some nothing_found).
Proof.
  intros Hcan Hdown nothing_found.
  assert (main BeautifulSoup network today w
          = (0%Z,
             {| can_makedirs := true;
                files :=
                  <[path :=
                      Json (<[today := nothing_found]>
                              (data (Monitor.load path (files w))))]>
                    (files w);
                requests := requests w + 4 |})) as Hmain.
  { rewrite (main_runs w Hcan), (run_scrape_unsuccessful _ Hdown).
    assert (build_my_out (mkScraped None (Some []) (Some []) (Some ∅))
            = {[ "featured_headlines" := VList [];
                 "recent_headlines" := VList [];
                 "social_links" := VDict ∅ ]}) as ->.
    { vm_compute. reflexivity. }
    reflexivity. }
  split; [exact Hmain|]. rewrite Hmain. cbn [snd files]. split.
  - intros Hsame.
    assert (files w !! path
            = Some (Json (<[today := nothing_found]>
                            (data (Monitor.load path (files w)))))) as Hfile
      by (rewrite <- Hsame at 1; apply lookup_insert_eq).
    eexists. split; [exact Hfile|]. apply lookup_insert_eq.
  - intros (d & Hfile & Hday). unfold Monitor.load. cbn [data].
    rewrite Hfile, (insert_id d today _ Hday).
    by apply insert_id.
Qed.

(** C9. Modelled on the monitor of the spec: a second [add_today] on the
    same day replaces the value of the first and leaves one entry for the
    day. In a run that has a headline, the store first receives the
    headline and then the mapping of the other results, and what the
    monitor and its file hold for the day at the end is the mapping: the
    store is the one a single write of the mapping would have given. *)
Theorem add_today_last_write_wins d fh mr sm dem fs (a b : value) :
  Monitor.add_today today b (Monitor.add_today today a dem)
  = Monitor.add_today today b dem
  ∧ data (Monitor.add_today today b (Monitor.add_today today a dem)) !! today
    = Some b
  ∧ (let s := mkScraped (Some d) fh mr sm in
     let first_write := Monitor.add_today today (VStr d) dem in
     let second_write := Monitor.add_today today (VDict (build_my_out s)) first_write in
     save_data today s dem fs
     = (second_write, Monitor.save second_write (Monitor.save first_write fs))
     ∧ data first_write !! today = Some (VStr d)
     ∧ data second_write !! today = Some (VDict (build_my_out s))
     ∧ second_write = Monitor.add_today today (VDict (build_my_out s)) dem
     ∧ snd (save_data today s dem fs) !! file_path dem
       = Some (Json (<[today := VDict (build_my_out s)]> (data dem)))).
Proof.
  unfold Monitor.add_today. simpl. repeat split.
  - by rewrite insert_insert_eq.
  - by rewrite lookup_insert_eq.
  - by rewrite lookup_insert_eq.
  - by rewrite lookup_insert_eq.
  - by rewrite insert_insert_eq.
  - unfold save_data, Monitor.save, Monitor.add_today. simpl.
    by rewrite lookup_insert_eq, insert_insert_eq.
Qed.

(** C10. A run that reaches the writes (the directory could be made) sets
    the key of the day to the mapping built from the results and saves the
    store, whatever the results are: the file then holds that mapping
    under the key of the day. The mapping holds the featured headlines,
    the recent headlines and the social links under their keys, each when
    its result is not [None], and nothing else. When the four results are
    [None], as after an exception in the [try] block, the mapping is
    empty. *)
Theorem main_always_writes_today w :
  can_makedirs w = true →
  let s := fst (run_scrape BeautifulSoup network (requests w)) in
  ∃ d my_out,
    files (snd (main BeautifulSoup network today w)) !! path = Some (Json d)
    ∧ d !! today = Some (VDict my_out)
    ∧ my_out = build_my_out s
    ∧ my_out !! "featured_headlines"
      = (λ l, VList (VStr <$> l)) <$> feat_headlines s
    ∧ my_out !! "recent_headlines"
      = (λ l, VList (VStr <$> l)) <$> most_recent s
    ∧ my_out !! "social_links"
      = (λ links, VDict (VStr <$> links)) <$> social_media s
    ∧ (∀ key,
         key ∉ ["featured_headlines"; "recent_headlines"; "social_links"] →
         my_out !! key = None)
    ∧ (s = mkScraped None None None None → my_out = ∅).
Proof.
  intros Hcan s. rewrite (main_runs w Hcan). subst s.
  destruct (run_scrape _ _ _) as [s n]. cbn [fst snd files].
  exists (<[today := VDict (build_my_out s)]>
            (data (Monitor.load path (files w)))), (build_my_out s).
  split; [apply lookup_insert_eq|].
  split; [apply lookup_insert_eq|].
  split; [done|].
  unfold build_my_out, of_strs, of_links.
  destruct (feat_headlines s) as [fh|] eqn:Hfh,
    (most_recent s) as [mr|] eqn:Hmr,
    (social_media s) as [sm|] eqn:Hsm;
    (split; [by simplify_map_eq|]); (split; [by simplify_map_eq|]);
    (split; [by simplify_map_eq|]);
    (split;
     [intros key Hkey;
      apply not_elem_of_cons in Hkey as [? Hkey];
      apply not_elem_of_cons in Hkey as [? Hkey];
      apply not_elem_of_cons in Hkey as [? _];
      by simplify_map_eq|]);
    intros ->; simplify_eq/=; done.
Qed.

End Run.

(** ** The theorems at the sample pages *)

Module Checks.
Import Sample.

Ltac eval_list :=
  match goal with
  | |- Forall ?P ?l => let l' := eval vm_compute in l in change (Forall P l')
  | |- Exists ?P ?l => let l' := eval vm_compute in l in change (Exists P l')
  end.

(** C1 fails as stated: with every fetch unsuccessful, the file, which held
    no entry for the day, holds one after the run. *)
Lemma main_fetch_unsuccessful_changes_file :
  files world !! path = Some (Json yesterday)
  ∧ yesterday !! day = None
  ∧ files (snd (main html_parser (serve unavailable) day world)) !! path
    = Some (Json (<[day := nothing_found]> yesterday))
  ∧ files (snd (main html_parser (serve unavailable) day world)) ≠ files world.
Proof.
  assert (files (snd (main html_parser (serve unavailable) day world)) !! path
          = Some (Json (<[day := nothing_found]> yesterday))) as Hafter
    by (vm_compute; reflexivity).
  split; [vm_compute; reflexivity|].
  split; [vm_compute; reflexivity|].
  split; [exact Hafter|].
  intros Heq. rewrite Heq in Hafter. vm_compute in Hafter. discriminate.
Qed.

Lemma main_fetch_unsuccessful_sample :
  main html_parser (serve unavailable) day world
  = (0%Z,
     {| can_makedirs := true;
        files := {[ path := Json (<[day := nothing_found]> yesterday) ]};
        requests := 4 |})
  ∧ files (snd (main html_parser (serve unavailable) day world)) ≠ files world.
Proof.
  destruct (main_fetch_unsuccessful html_parser (serve unavailable) day world)
    as [Hmain Hsame].
  - reflexivity.
  - intros k. exists unavailable. split; reflexivity.
  - split.
    + rewrite Hmain. vm_compute. reflexivity.
    + intros (d & Hfile & Hday)%Hsame.
      vm_compute in Hfile. injection Hfile as <-.
      vm_compute in Hday. discriminate Hday.
Defined.

(** C2 fails as stated: a run on a site whose page changes after the first
    answer makes four requests, takes the headline from the first page and
    the other results from the later one. *)
Lemma run_scrape_fetches_four_times :
  run_scrape html_parser
    (replay [page home_markup; page plain_markup; page plain_markup;
             page plain_markup]) 0
  = (mkScraped (Some " Penn wins ") (Some []) (Some []) (Some ∅), 4)
  ∧ 4 ≠ 1
  ∧ fst (scrape_featured_headlines html_parser (serve (page home_markup)) 0)
    = Return ["First"; "Second"].
Proof. split; [|split]; [vm_compute; reflexivity|lia|vm_compute; reflexivity]. Qed.

Lemma run_scrape_four_requests_sample :
  run_scrape html_parser (serve (page home_markup)) 0
  = (mkScraped (Some " Penn wins ") (Some ["First"; "Second"])
       (Some ["Recent one"])
       (Some {[ "facebook" := "https://facebook.com/x";
                "twitter" := "https://twitter.com/y" ]}), 4).
Proof.
  apply (run_scrape_four_requests html_parser (serve (page home_markup)) 0);
    vm_compute; reflexivity.
Defined.

(** C3 fails as stated: the headline comes back with the white space
    around it, which [strip] would remove, and an unsuccessful fetch gives
    [None], not the empty string. *)
Lemma scrape_data_point_not_trimmed :
  scrape_data_point html_parser (serve (page home_markup)) 0
  = (Return (Some " Penn wins "), 1)
  ∧ Soup.find "a" (Some "frontpage-link") (html_parser home_markup)
    = Some (link ["frontpage-link"] " Penn wins ")
  ∧ Str.strip " Penn wins " = "Penn wins"
  ∧ " Penn wins " ≠ "Penn wins"
  ∧ scrape_data_point html_parser (serve unavailable) 0 = (Return None, 1)
  ∧ Return (A := option string) None ≠ Return (Some "").
Proof.
  split; [vm_compute; reflexivity|]. split; [vm_compute; reflexivity|].
  split; [vm_compute; reflexivity|]. split; [discriminate|].
  split; [vm_compute; reflexivity|discriminate].
Qed.

Lemma scrape_data_point_text_sample :
  scrape_data_point html_parser (serve (page home_markup)) 0
  = (Return (Some " Penn wins "), 1)
  ∧ scrape_data_point html_parser (serve (page bare_markup)) 0
    = (Return (Some ""), 1)
  ∧ scrape_data_point html_parser (serve unavailable) 0 = (Return None, 1).
Proof.
  split; [|split].
  - destruct (scrape_data_point_text html_parser (serve (page home_markup))
                0 (page home_markup) eq_refl) as (Hfound & _ & _).
    exact (Hfound eq_refl (link ["frontpage-link"] " Penn wins ") eq_refl).
  - destruct (scrape_data_point_text html_parser (serve (page bare_markup))
                0 (page bare_markup) eq_refl) as (_ & Hmissing & _).
    exact (Hmissing eq_refl eq_refl).
  - destruct (scrape_data_point_text html_parser (serve unavailable)
                0 unavailable eq_refl) as (_ & _ & Hdown).
    exact (Hdown eq_refl).
Defined.

Lemma scrape_featured_headlines_sample :
  ∃ formatted_titles,
    scrape_featured_headlines html_parser (serve (page home_markup)) 0
    = (Return formatted_titles, 1)
    ∧ length formatted_titles = 2
    ∧ formatted_titles !! 0 = Some "First"
    ∧ formatted_titles !! 1 = Some "Second".
Proof.
  destruct (scrape_featured_headlines_one_per_container html_parser
              (serve (page home_markup)) 0 (page home_markup)
              eq_refl eq_refl)
    as (titles & Heq & Hlen & Hith).
  { eval_list. repeat constructor; eexists; reflexivity. }
  exists titles. split; [exact Heq|]. split; [exact Hlen|]. split.
  - edestruct (Hith 0) as (a & Ha & Ht); [reflexivity|].
    vm_compute in Ha. injection Ha as <-. exact Ht.
  - edestruct (Hith 1) as (a & Ha & Ht); [reflexivity|].
    vm_compute in Ha. injection Ha as <-. exact Ht.
Defined.

Lemma scrape_featured_headlines_missing_link_sample :
  scrape_featured_headlines html_parser (serve (page later_markup)) 0
  = (Raise AttributeError, 1).
Proof.
  apply (scrape_featured_headlines_missing_link html_parser
           (serve (page later_markup)) 0 (page later_markup) eq_refl eq_refl).
  eval_list. apply Exists_cons_hd. reflexivity.
Defined.

Lemma scrape_most_recent_headlines_sample :
  ∃ formatted_titles,
    scrape_most_recent_headlines html_parser (serve (page home_markup)) 0
    = (Return formatted_titles, 1)
    ∧ length formatted_titles = 1
    ∧ formatted_titles !! 0 = Some "Recent one".
Proof.
  destruct (scrape_most_recent_headlines_trimmed html_parser
              (serve (page home_markup)) 0 (page home_markup)
              eq_refl eq_refl)
    as (titles & Heq & Hlen & Hith & _).
  exists titles. split; [exact Heq|]. split; [exact Hlen|].
  exact (Hith 0 _ eq_refl).
Defined.

Lemma scrape_social_media_links_sample :
  ∃ formatted_output,
    scrape_social_media_links html_parser (serve (page home_markup)) 0
    = (Return formatted_output, 1)
    ∧ formatted_output !! "facebook" = Some "https://facebook.com/x"
    ∧ formatted_output !! "twitter" = Some "https://twitter.com/y"
    ∧ formatted_output !! "instagram" = None.
Proof.
  destruct (proj2 scrape_social_media_links_classified html_parser
              (serve (page home_markup)) 0 (page home_markup) icons
              eq_refl eq_refl eq_refl)
    as (m & Heq & Hkeys & _).
  { eval_list. repeat constructor; eexists; reflexivity. }
  exists m. split; [exact Heq|].
  rewrite !Hkeys. split; [|split]; vm_compute; reflexivity.
Defined.

Lemma scrape_social_media_links_no_container_sample :
  scrape_social_media_links html_parser (serve (page bare_markup)) 0
  = (Raise AttributeError, 1).
Proof.
  exact (scrape_social_media_links_no_container html_parser
           (serve (page bare_markup)) 0 (page bare_markup)
           eq_refl eq_refl eq_refl).
Defined.

Lemma main_always_writes_today_sample :
  (∃ d my_out,
     files (snd (main html_parser (serve (page home_markup)) day world)) !! path
     = Some (Json d)
     ∧ d !! day = Some (VDict my_out)
     ∧ my_out !! "featured_headlines"
       = Some (VList [VStr "First"; VStr "Second"])
     ∧ my_out !! "recent_headlines" = Some (VList [VStr "Recent one"])
     ∧ my_out !! "social_links"
       = Some (VDict {[ "facebook" := VStr "https://facebook.com/x";
                        "twitter" := VStr "https://twitter.com/y" ]}))
  ∧ (∃ d,
       files (snd (main html_parser (serve (page bare_markup)) day world))
       !! path = Some (Json d)
       ∧ d !! day = Some (VDict ∅)).
Proof.
  split.
  - destruct (main_always_writes_today html_parser
                (serve (page home_markup)) day world eq_refl)
      as (d & my_out & Hfile & Hday & _ & Hfh & Hmr & Hsm & _).
    exists d, my_out. split; [exact Hfile|]. split; [exact Hday|].
    split; [exact Hfh|]. split; [exact Hmr|].
    rewrite Hsm. vm_compute. reflexivity.
  - destruct (main_always_writes_today html_parser
                (serve (page bare_markup)) day world eq_refl)
      as (d & my_out & Hfile & Hday & _ & _ & _ & _ & _ & Hnone).
    exists d. split; [exact Hfile|]. rewrite Hday.
    rewrite Hnone; [reflexivity|]. vm_compute. reflexivity.
Defined.

End Checks.

(** * Further properties of the scraping functions *)

(** A string that neither starts nor ends with white space, which
    [strip] therefore leaves as it is. *)
Definition trimmed (s : string) : Prop :=
  (∀ c, Str.first s = Some c → Str.isspace c = false)
  ∧ (∀ c, Str.final s = Some c → Str.isspace c = false)
  ∧ Str.strip s = s.

Lemma strip_trimmed s : trimmed (Str.strip s).
Proof.
  split; [apply StrFacts.strip_first|].
  split; [apply StrFacts.strip_final|apply StrFacts.strip_idemp].
Qed.

Lemma comprehension_getattr_Forall {A B} (f : A → B) (P : B → Prop)
    (l : list (option A)) (ys : list B) :
  (∀ e, P (f e)) →
  comprehension (λ a, getattr a f) l = Return ys → Forall P ys.
Proof.
  intros HP. revert ys.
  induction l as [|[e|] l IH]; intros ys; simpl; [by intros [= <-]| |done].
  destruct (comprehension _ l) as [ys'|]; [|done].
  intros [= <-]. constructor; [apply HP|by apply IH].
Qed.

(** The first loop raises when an item has no link, whatever it has
    collected so far. *)
Lemma collect_links_no_link target_li links :
  Exists (λ li, Soup.find "a" None li = None) target_li →
  collect_links target_li links = Raise AttributeError.
Proof.
  intros Hex. revert links.
  induction target_li as [|li rest IH]; intros links.
  - by apply Exists_nil in Hex.
  - simpl. destruct (Soup.find "a" None li) as [a|] eqn:Ha; [|done].
    apply Exists_cons in Hex as [Hli|Hrest]; [congruence|]. simpl.
    destruct (truthy _); by apply IH.
Qed.

(** What the second loop stores was filed under its key. *)
Lemma fold_classify_filed links key link :
  fold_left classify links ∅ !! key = Some link → platform link = Some key.
Proof.
  rewrite fold_classify_lookup, lookup_empty.
  destruct (last _) as [link'|] eqn:Hlast; [|done].
  intros [= ->]. by apply last_filter_Some in Hlast as [? _].
Qed.

Section MoreExtractors.

Variable BeautifulSoup : string → PageElement.
Variable network : string → nat → outcome.

Abbreviation url := "https://www.thedp.com" (only parsing).

(** X1. When [requests.get] raises, each of the four functions lets the
    exception through: it has made that one request, makes no other, and
    returns nothing. A run whose first request raises therefore makes no
    second one, and its four variables are [None]. *)
Theorem scrape_request_exception n :
  network url n = Fails →
  scrape_data_point BeautifulSoup network n = (Raise RequestException, S n)
  ∧ scrape_featured_headlines BeautifulSoup network n
    = (Raise RequestException, S n)
  ∧ scrape_most_recent_headlines BeautifulSoup network n
    = (Raise RequestException, S n)
  ∧ scrape_social_media_links BeautifulSoup network n
    = (Raise RequestException, S n)
  ∧ run_scrape BeautifulSoup network n
    = (mkScraped None None None None, S n).
Proof.
  intros H.
  unfold run_scrape, scrape_data_point, scrape_featured_headlines,
    scrape_most_recent_headlines, scrape_social_media_links,
    bind, requests_get.
  by rewrite H.
Qed.

(** X2. On an unsuccessful response the three functions after the headline
    return their empty value, a list or a mapping, whatever the body of the
    response holds; they do not raise and they do not parse the body. *)
Theorem scrape_unsuccessful_empty n r :
  network url n = Responds r →
  ok r = false →
  scrape_featured_headlines BeautifulSoup network n = (Return [], S n)
  ∧ scrape_most_recent_headlines BeautifulSoup network n = (Return [], S n)
  ∧ scrape_social_media_links BeautifulSoup network n = (Return ∅, S n).
Proof.
  intros H Hok.
  rewrite (scrape_featured_headlines_responds _ _ n r H),
    (scrape_most_recent_headlines_responds _ _ n r H),
    (scrape_social_media_links_responds _ _ n r H), Hok.
  done.
Qed.

(** X3. On a successful response whose list of social icons has an item
    with no link below it, [scrape_social_media_links] raises
    [AttributeError] (the call of [get] on [None]); the links of the other
    items are not returned. *)
Theorem scrape_social_media_links_item_without_link n r target_ul :
  network url n = Responds r →
  ok r = true →
  Soup.find "ul" (Some "social-icons") (BeautifulSoup (text r))
  = Some target_ul →
  Exists (λ li, Soup.find "a" None li = None)
    (Soup.findAll "li" None target_ul) →
  scrape_social_media_links BeautifulSoup network n
  = (Raise AttributeError, S n).
Proof.
  intros H Hok Hul Hex.
  rewrite (scrape_social_media_links_responds _ _ n r H), Hok, Hul.
  by rewrite (collect_links_no_link _ _ Hex).
Qed.

(** X4. Whatever the page, a mapping returned by
    [scrape_social_media_links] holds under [facebook] a link that contains
    [facebook.com], under [twitter] a link that contains [twitter.com] and
    not [facebook.com], under [instagram] a link that contains
    [instagram.com] and neither of the two others; it has no other key and
    no empty link. *)
Theorem scrape_social_media_links_filed n formatted_output key link :
  fst (scrape_social_media_links BeautifulSoup network n)
  = Return formatted_output →
  formatted_output !! key = Some link →
  link ≠ ""
  ∧ ((key = "facebook" ∧ Str.contains "facebook.com" link = true)
     ∨ (key = "twitter" ∧ Str.contains "facebook.com" link = false
        ∧ Str.contains "twitter.com" link = true)
     ∨ (key = "instagram" ∧ Str.contains "facebook.com" link = false
        ∧ Str.contains "twitter.com" link = false
        ∧ Str.contains "instagram.com" link = true)).
Proof.
  intros Hret Hkey.
  assert (platform link = Some key) as Hfiled.
  { destruct (network url n) as [r|] eqn:H.
    - rewrite (scrape_social_media_links_responds _ _ n r H) in Hret.
      simpl in Hret. destruct (ok r).
      + destruct (Soup.find _ _ _) as [ul|]; [|done].
        destruct (collect_links _ _) as [links|]; [|done].
        injection Hret as <-. by eapply fold_classify_filed.
      + injection Hret as <-. by rewrite lookup_empty in Hkey.
    - unfold scrape_social_media_links, bind, requests_get in Hret.
      by rewrite H in Hret. }
  split; [|by apply platform_Some].
  intros ->. by vm_compute in Hfiled.
Qed.

(** X5. Every string in a list returned by [scrape_featured_headlines] or
    by [scrape_most_recent_headlines] is trimmed: it neither starts nor
    ends with white space. *)
Theorem scrape_headlines_trimmed n :
  (∀ formatted_titles,
     fst (scrape_featured_headlines BeautifulSoup network n)
     = Return formatted_titles →
     Forall trimmed formatted_titles)
  ∧ (∀ formatted_titles,
       fst (scrape_most_recent_headlines BeautifulSoup network n)
       = Return formatted_titles →
       Forall trimmed formatted_titles).
Proof.
  split; intros titles Hret.
  - destruct (network url n) as [r|] eqn:H.
    + rewrite (scrape_featured_headlines_responds _ _ n r H) in Hret.
      simpl in Hret. destruct (ok r).
      * eapply (comprehension_getattr_Forall
                  (λ e, Str.strip (Soup.text e))); [|exact Hret].
        intros e. apply strip_trimmed.
      * injection Hret as <-. constructor.
    + unfold scrape_featured_headlines, bind, requests_get in Hret.
      by rewrite H in Hret.
  - destruct (network url n) as [r|] eqn:H.
    + rewrite (scrape_most_recent_headlines_responds _ _ n r H) in Hret.
      injection Hret as <-. destruct (ok r); [|constructor].
      apply Forall_fmap, Forall_forall. intros e _. apply strip_trimmed.
    + unfold scrape_most_recent_headlines, bind, requests_get in Hret.
      by rewrite H in Hret.
Qed.

End MoreExtractors.

(** * Further properties of the [try] block *)

Section MoreRun.

Variable BeautifulSoup : string → PageElement.
Variable network : string → nat → outcome.

Abbreviation none_scraped := (mkScraped None None None None) (only parsing).

(** The state after each call, and the result of the block once the
    results of the calls are known. *)
Lemma run_scrape_cases n :
  run_scrape BeautifulSoup network n
  = match fst (scrape_data_point BeautifulSoup network n) with
    | Raise _ => (none_scraped, n + 1)
    | Return dp =>
        match fst (scrape_featured_headlines BeautifulSoup network (n + 1)) with
        | Raise _ => (none_scraped, n + 2)
        | Return fh =>
            match fst (scrape_most_recent_headlines BeautifulSoup network
                         (n + 2)) with
            | Raise _ => (none_scraped, n + 3)
            | Return mr =>
                match fst (scrape_social_media_links BeautifulSoup network
                             (n + 3)) with
                | Raise _ => (none_scraped, n + 4)
                | Return sm =>
                    (mkScraped dp (Some fh) (Some mr) (Some sm), n + 4)
                end
            end
        end
    end.
Proof.
  unfold run_scrape, bind, ret.
  replace (n + 1) with (S n) by lia.
  replace (n + 2) with (S (S n)) by lia.
  replace (n + 3) with (S (S (S n))) by lia.
  replace (n + 4) with (S (S (S (S n)))) by lia.
  pose proof (scrape_data_point_requests BeautifulSoup network n) as H1.
  destruct (scrape_data_point _ _ n) as [[dp|e] n1];
    simpl in H1; subst n1; simpl; [|done].
  pose proof (scrape_featured_headlines_requests BeautifulSoup network (S n))
    as H2.
  destruct (scrape_featured_headlines _ _ (S n)) as [[fh|e] n2];
    simpl in H2; subst n2; simpl; [|done].
  pose proof (scrape_most_recent_headlines_requests BeautifulSoup network
                (S (S n))) as H3.
  destruct (scrape_most_recent_headlines _ _ (S (S n))) as [[mr|e] n3];
    simpl in H3; subst n3; simpl; [|done].
  pose proof (scrape_social_media_links_requests BeautifulSoup network
                (S (S (S n)))) as H4.
  destruct (scrape_social_media_links _ _ (S (S (S n)))) as [[sm|e] n4];
    simpl in H4; subst n4; simpl; done.
Qed.

(** X6. When one of the four calls raises on the request that is its turn,
    the [try] block leaves all four variables [None]: the results of the
    calls that had returned before it, the headline among them, are
    discarded. *)
Theorem run_scrape_exception n :
  (∃ e, fst (scrape_data_point BeautifulSoup network n) = Raise e)
  ∨ (∃ e, fst (scrape_featured_headlines BeautifulSoup network (n + 1))
          = Raise e)
  ∨ (∃ e, fst (scrape_most_recent_headlines BeautifulSoup network (n + 2))
          = Raise e)
  ∨ (∃ e, fst (scrape_social_media_links BeautifulSoup network (n + 3))
          = Raise e) →
  fst (run_scrape BeautifulSoup network n) = none_scraped.
Proof.
  intros Hraise. rewrite run_scrape_cases.
  destruct (fst (scrape_data_point _ _ n)) as [dp|e1]; [|done].
  destruct (fst (scrape_featured_headlines _ _ (n + 1))) as [fh|e2]; [|done].
  destruct (fst (scrape_most_recent_headlines _ _ (n + 2))) as [mr|e3];
    [|done].
  destruct (fst (scrape_social_media_links _ _ (n + 3))) as [sm|e4]; [|done].
  destruct Hraise as [[e ?]|[[e ?]|[[e ?]|[e ?]]]]; discriminate.
Qed.

(** X7. The [try] block makes at least one request and at most four, one
    for each call it reaches: a call that raises ends it, and no request is
    made again. When it makes fewer than four, the four variables are
    [None]. *)
Theorem run_scrape_request_count n :
  let requests_made := snd (run_scrape BeautifulSoup network n) - n in
  1 ≤ requests_made ≤ 4
  ∧ (requests_made < 4 →
     fst (run_scrape BeautifulSoup network n) = none_scraped).
Proof.
  cbv zeta. rewrite run_scrape_cases.
  destruct (fst (scrape_data_point _ _ n)) as [dp|e1];
    [|simpl; split; [lia|done]].
  destruct (fst (scrape_featured_headlines _ _ (n + 1))) as [fh|e2];
    [|simpl; split; [lia|done]].
  destruct (fst (scrape_most_recent_headlines _ _ (n + 2))) as [mr|e3];
    [|simpl; split; [lia|done]].
  destruct (fst (scrape_social_media_links _ _ (n + 3))) as [sm|e4];
    simpl; (split; [lia|]); [lia|done].
Qed.

(** X8. The mapping the run builds for the day is never filled in part: it
    is empty, the headline being [None] as well, or it has the three keys
    [featured_headlines], [recent_headlines] and [social_links], each with
    the result of its call. *)
Theorem build_my_out_all_or_nothing n :
  let s := fst (run_scrape BeautifulSoup network n) in
  (s = none_scraped ∧ build_my_out s = ∅)
  ∨ (∃ fh mr sm,
       feat_headlines s = Some fh ∧ most_recent s = Some mr
       ∧ social_media s = Some sm
       ∧ build_my_out s !! "featured_headlines" = Some (of_strs fh)
       ∧ build_my_out s !! "recent_headlines" = Some (of_strs mr)
       ∧ build_my_out s !! "social_links" = Some (of_links sm)
       ∧ dom (build_my_out s)
         = ({[ "featured_headlines"; "recent_headlines"; "social_links" ]}
            : gset string)).
Proof.
  cbv zeta.
  destruct (run_scrape_all_or_nothing BeautifulSoup network n)
    as [->|(dp & fh & mr & sm & ->)]; [by left|right].
  exists fh, mr, sm. unfold build_my_out. simpl.
  do 6 (split; [done|]).
  rewrite !dom_insert_L, dom_empty_L. set_solver.
Qed.

End MoreRun.

(** * [print_tree] *)

(** ** Strings and paths *)

Module PathFacts.
Import StrFacts.

Lemma app_assoc' a b c : (a +:+ b) +:+ c = a +:+ b +:+ c.
Proof. induction a as [|x a IH]; [done|]. by rewrite !app_cons, IH. Qed.

Lemma prefix_app old r : String.prefix old (old +:+ r) = true.
Proof. apply prefix_split. by exists r. Qed.

Lemma contains_false sub c s :
  Str.contains sub (String c s) = false →
  String.prefix sub (String c s) = false ∧ Str.contains sub s = false.
Proof. cbn [Str.contains]. by intros ?%orb_false_elim. Qed.

(** Once an occurrence is passed over, the scan starts again behind it. *)
Lemma replace_go_skip old new a r :
  StrOps.replace_go old new (String.length a) (a +:+ r)
  = StrOps.replace_go old new 0 r.
Proof. induction a as [|c a IH]; [done|]. by rewrite app_cons. Qed.

(** A string in which [old] does not occur is left as it is. *)
Lemma replace_go_absent old r :
  Str.contains old r = false → StrOps.replace_go old "" 0 r = r.
Proof.
  induction r as [|c r IH]; [done|].
  intros [Hp Hc]%contains_false. cbn [StrOps.replace_go].
  by rewrite Hp, IH.
Qed.

(** [(directory + r).replace(directory, "")] is [r] when [directory] does
    not occur in [r]. *)
Lemma replace_prefix directory r :
  directory ≠ "" →
  Str.contains directory r = false →
  StrOps.replace directory "" (directory +:+ r) = r.
Proof.
  intros Hne Habsent. destruct directory as [|c d]; [done|].
  unfold StrOps.replace. rewrite app_cons. cbn [StrOps.replace_go].
  rewrite <- app_cons, prefix_app. cbn [String.length].
  rewrite Nat.sub_1_r. cbn [Nat.pred].
  change ("" +:+ ?s) with s.
  rewrite replace_go_skip. by apply replace_go_absent.
Qed.

(** Counting the separator counts its characters. *)
Lemma prefix_sep c s :
  String.prefix OsPath.sep (String c s) = Ascii.eqb c "/".
Proof.
  unfold OsPath.sep. cbn [String.prefix].
  destruct (ascii_dec "/" c) as [<-|Hne]; [by destruct s|].
  destruct (Ascii.eqb_spec c "/"); [congruence|done].
Qed.

Lemma count_go_sep c s :
  StrOps.count_go OsPath.sep 0 (String c s)
  = (if Ascii.eqb c "/" then 1 else 0) + StrOps.count_go OsPath.sep 0 s.
Proof.
  cbn [StrOps.count_go]. rewrite prefix_sep.
  by destruct (Ascii.eqb c "/").
Qed.

Lemma count_go_app a b :
  StrOps.count_go OsPath.sep 0 (a +:+ b)
  = StrOps.count_go OsPath.sep 0 a + StrOps.count_go OsPath.sep 0 b.
Proof.
  induction a as [|c a IH]; [done|].
  rewrite app_cons, !count_go_sep, IH. lia.
Qed.

Lemma count_go_absent name :
  Str.contains OsPath.sep name = false →
  StrOps.count_go OsPath.sep 0 name = 0.
Proof.
  induction name as [|c name IH]; [done|].
  intros [Hp Hc]%contains_false. rewrite count_go_sep, IH by done.
  rewrite prefix_sep in Hp. by rewrite Hp.
Qed.

Lemma proper_name_spec name :
  proper_name name = true
  ↔ name ≠ "" ∧ Str.contains OsPath.sep name = false.
Proof.
  unfold proper_name. rewrite andb_true_iff, !negb_true_iff.
  rewrite String.eqb_neq. done.
Qed.

Lemma count_relative names :
  Forall (λ name, proper_name name = true) names →
  StrOps.count OsPath.sep (relative names) = length names.
Proof.
  unfold StrOps.count, OsPath.sep.
  induction 1 as [|name names [_ Hname]%proper_name_spec _ IH]; [done|].
  cbn [relative]. change "/" with OsPath.sep in *.
  rewrite !count_go_app, IH, (count_go_absent name Hname). done.
Qed.

(** [" " * 4 * level] is [4 * level] spaces. *)
Lemma times_app s n m :
  StrOps.times s (n + m) = StrOps.times s n +:+ StrOps.times s m.
Proof. induction n as [|n IH]; [done|]. simpl. by rewrite IH, app_assoc'. Qed.

Lemma times_times s n m :
  StrOps.times (StrOps.times s n) m = StrOps.times s (n * m).
Proof.
  induction m as [|m IH].
  - by rewrite Nat.mul_0_r.
  - simpl. rewrite IH, <- times_app. f_equal. lia.
Qed.

(** The last character of a path. *)
Lemma final_app a c b : Str.final (a +:+ String c b) = Str.final (String c b).
Proof.
  induction a as [|x a IH]; [done|]. rewrite app_cons.
  cbn [Str.final]. rewrite IH.
  destruct a; done.
Qed.

Lemma final_no_sep name c :
  Str.contains OsPath.sep name = false →
  Str.final name = Some c → c ≠ "/"%char.
Proof.
  induction name as [|x name IH]; [done|].
  intros [Hp Hc]%contains_false. rewrite prefix_sep in Hp.
  destruct name as [|y name].
  - simpl. intros [= <-] ->. done.
  - intros Hfin. by apply IH.
Qed.

Lemma final_cons c s : is_Some (Str.final (String c s)).
Proof.
  revert c. induction s as [|y s IH]; intros c; [by eexists|].
  destruct (IH y) as [z Hz]. exists z. cbn [Str.final]. exact Hz.
Qed.

Lemma open_ended_join a name :
  proper_name name = true → open_ended (a +:+ OsPath.sep +:+ name).
Proof.
  intros [Hne Hsep]%proper_name_spec.
  destruct name as [|x name]; [done|].
  unfold open_ended. rewrite <- app_assoc', final_app.
  destruct (final_cons x name) as [c Hfin].
  exists c. split; [done|]. by eapply final_no_sep.
Qed.

(** [os.path.join] puts one separator between a path that does not end
    with one and a name. *)
Lemma join_open_ended a name :
  open_ended a → proper_name name = true →
  OsPath.join a name = a +:+ OsPath.sep +:+ name.
Proof.
  intros (c & Hfin & Hc) [Hne Hsep]%proper_name_spec. unfold OsPath.join.
  destruct name as [|x name]; [done|].
  apply contains_false in Hsep as [-> _]. rewrite Hfin.
  by destruct (Ascii.eqb_spec c "/").
Qed.

(** [os.path.basename] of a path that ends with a name is the name. *)
Lemma basename_join a name :
  Str.contains OsPath.sep name = false →
  OsPath.basename (a +:+ OsPath.sep +:+ name) = name.
Proof.
  intros Hsep. induction a as [|c a IH].
  - change ("" +:+ ?s) with s. unfold OsPath.sep at 1.
    rewrite app_cons. change ("" +:+ ?s) with s.
    cbn [OsPath.basename]. by rewrite Hsep.
  - rewrite app_cons. cbn [OsPath.basename].
    assert (Str.contains OsPath.sep (a +:+ OsPath.sep +:+ name) = true)
      as -> by (apply contains_spec; by exists a, name).
    done.
Qed.

Lemma relative_snoc names name :
  relative (names ++ [name]) = relative names +:+ OsPath.sep +:+ name.
Proof.
  induction names as [|x names IH]; simpl.
  - by rewrite app_empty_r.
  - by rewrite IH, !app_assoc'.
Qed.

End PathFacts.

(** ** The walk *)

Lemma Folder_nested_ind (P : Folder → Prop) :
  (∀ dirs files, Forall (λ d, P (snd d)) dirs → P (mkFolder dirs files)) →
  ∀ t, P t.
Proof.
  intros step. fix IH 1. intros [dirs files]. apply step.
  induction dirs as [|d dirs IHdirs]; constructor; [apply IH|apply IHdirs].
Qed.

Lemma flat_map_flat_map {A B C} (f : B → list C) (g : A → list B)
    (l : list A) :
  flat_map f (flat_map g l) = flat_map (λ x, flat_map f (g x)) l.
Proof.
  induction l as [|x l IH]; [done|]. simpl.
  by rewrite flat_map_app, IH.
Qed.

Lemma flat_map_agree {A B} (f g : A → list B) (l : list A) :
  Forall (λ x, f x = g x) l → flat_map f l = flat_map g l.
Proof. induction 1 as [|x l Hx _ IH]; [done|]. simpl. by rewrite Hx, IH. Qed.

Lemma log_turn_dirs directory root dirs dirs' files :
  log_turn directory (root, dirs, files)
  = log_turn directory (root, dirs', files).
Proof. reflexivity. Qed.

Lemma walk_prune directory ignore_dirs t :
  ∀ top,
    flat_map (log_turn directory) (os_walk ignore_dirs top t)
    = flat_map (log_turn directory) (os_walk [] top (prune ignore_dirs t)).
Proof.
  induction t as [dirs files IH] using Folder_nested_ind. intros top.
  cbn [os_walk prune flat_map].
  rewrite (log_turn_dirs directory top (fst <$> dirs)
             (fst <$> flat_map
                (λ d, if bool_decide (fst d ∈ ignore_dirs) then []
                      else [(fst d, prune ignore_dirs (snd d))]) dirs)).
  f_equal.
  induction IH as [|d dirs Hd _ IHdirs]; [done|].
  cbn [flat_map]. rewrite !flat_map_app, IHdirs. f_equal.
  destruct (bool_decide (fst d ∈ ignore_dirs)) eqn:Hig; [done|].
  cbn [flat_map fst snd]. rewrite app_nil_r.
  rewrite bool_decide_eq_false_2 by apply not_elem_of_nil.
  apply Hd.
Qed.

Lemma prune_dir_names ignore_dirs t :
  Forall (λ name, name ∉ ignore_dirs) (dir_names (prune ignore_dirs t)).
Proof.
  induction t as [dirs files IH] using Folder_nested_ind.
  cbn [prune dir_names].
  induction IH as [|d dirs Hd _ IHdirs]; [constructor|].
  cbn [flat_map]. rewrite flat_map_app. apply Forall_app. split; [|done].
  destruct (bool_decide (fst d ∈ ignore_dirs)) eqn:Hig; [constructor|].
  apply bool_decide_eq_false in Hig.
  cbn [flat_map fst snd]. rewrite app_nil_r. by constructor.
Qed.

(** X9. [print_tree] never goes into a directory named in [ignore_dirs]:
    what it logs is what it would log, with nothing ignored, for the tree
    from which those directories have been removed at every depth, and
    that tree has no directory of such a name. What an ignored directory
    holds has no effect on the output; a file is logged whatever its
    name. *)
Theorem print_tree_prunes directory ignore_dirs t :
  print_tree directory ignore_dirs t
  = print_tree directory [] (prune ignore_dirs t)
  ∧ Forall (λ name, name ∉ ignore_dirs) (dir_names (prune ignore_dirs t)).
Proof.
  split; [|apply prune_dir_names].
  unfold print_tree. f_equal. apply walk_prune.
Qed.

Lemma basename_relative directory above :
  Forall (λ name, proper_name name = true) above →
  OsPath.basename (directory +:+ relative above)
  = default (OsPath.basename directory) (last above).
Proof.
  induction above as [|x above _] using rev_ind; intros Habove.
  - simpl. by rewrite StrFacts.app_empty_r.
  - rewrite last_snoc, PathFacts.relative_snoc. simpl.
    rewrite <- PathFacts.app_assoc'.
    apply PathFacts.basename_join.
    apply Forall_app in Habove as [_ Hx]. apply Forall_inv in Hx.
    by apply PathFacts.proper_name_spec in Hx as [_ ?].
Qed.

(** The walk and the drawing by depth agree below a directory reached by
    the names [above]. *)
Lemma walk_draw directory ignore_dirs t :
  directory ≠ "" →
  ∀ above,
    open_ended (directory +:+ relative above) →
    Forall (λ name, proper_name name = true) above →
    proper t = true →
    Forall (λ entry, Str.contains directory (relative (fst entry)) = false)
      (listing ignore_dirs above t) →
    flat_map (log_turn directory)
      (os_walk ignore_dirs (directory +:+ relative above) t)
    = flat_map (draw directory) (listing ignore_dirs above t).
Proof.
  intros Hne.
  induction t as [dirs files IH] using Folder_nested_ind.
  intros above Hopen Habove Hproper Habsent.
  cbn [os_walk listing flat_map].
  cbn [listing] in Habsent. apply Forall_cons in Habsent as [Hhere Hbelow].
  cbn [proper] in Hproper. f_equal.
  - (* the turn of this directory *)
    unfold log_turn, draw. cbn [fst] in Hhere.
    rewrite (PathFacts.replace_prefix _ _ Hne Hhere).
    rewrite (PathFacts.count_relative _ Habove).
    rewrite !PathFacts.times_times.
    by rewrite (basename_relative _ _ Habove).
  - (* the directories below *)
    rewrite !flat_map_flat_map. apply flat_map_agree.
    induction IH as [|d dirs Hd _ IHdirs]; [constructor|].
    cbn [forallb] in Hproper.
    apply andb_true_iff in Hproper as [[Hname Hd_proper]%andb_true_iff Hrest].
    cbn [flat_map] in Hbelow. apply Forall_app in Hbelow as [Hd_absent Hrest_absent].
    constructor; [|by apply IHdirs].
    destruct (bool_decide (fst d ∈ ignore_dirs)); [done|].
    rewrite (PathFacts.join_open_ended _ _ Hopen Hname).
    rewrite PathFacts.app_assoc', <- PathFacts.relative_snoc.
    apply Hd; [|by apply Forall_app; split; [|constructor]|done..].
    rewrite PathFacts.relative_snoc, <- PathFacts.app_assoc'.
    by apply PathFacts.open_ended_join.
Qed.

(** X10. When [directory] is not empty and does not end with a separator,
    the directories of the tree have proper names, and the text of
    [directory] does not occur again in the path of a visited directory
    below it, the level [print_tree] computes from the path is the depth:
    the top is logged without indentation under the last name of
    [directory], a directory [k] names below it is logged under its own
    name after [4 * k] spaces, and each file four spaces further than its
    directory. *)
Theorem print_tree_levels directory ignore_dirs t :
  directory ≠ "" →
  open_ended directory →
  proper t = true →
  Forall (λ entry, Str.contains directory (relative (fst entry)) = false)
    (listing ignore_dirs [] t) →
  print_tree directory ignore_dirs t
  = ("Printing tree of files/dirs at " +:+ directory)
    :: flat_map (draw directory) (listing ignore_dirs [] t).
Proof.
  intros Hne Hopen Hproper Habsent. unfold print_tree. f_equal.
  rewrite <- (StrFacts.app_empty_r directory) at 2.
  change "" with (relative []) at 1.
  apply walk_draw; try done.
  simpl. by rewrite StrFacts.app_empty_r.
Qed.

(** Without its separators a path has none to count. *)
Lemma count_replace_sep root :
  StrOps.count OsPath.sep (StrOps.replace OsPath.sep "" root) = 0.
Proof.
  unfold StrOps.count, StrOps.replace, OsPath.sep.
  change "/" with OsPath.sep.
  induction root as [|c root IH]; [done|].
  cbn [StrOps.replace_go]. rewrite PathFacts.prefix_sep.
  destruct (Ascii.eqb c "/") eqn:Hc.
  - exact IH.
  - rewrite PathFacts.count_go_sep, Hc. exact IH.
Qed.

(** X11. Called on the root directory ["/"], [print_tree] removes every
    separator from each path before it counts them, so the level is 0
    everywhere: every directory is logged without indentation and every
    file after four spaces, whatever the depth. *)
Theorem print_tree_root ignore_dirs t :
  print_tree OsPath.sep ignore_dirs t
  = "Printing tree of files/dirs at /"
    :: flat_map
         (λ turn,
            ("+--" +:+ OsPath.basename (fst (fst turn)) +:+ "/")
            :: map (λ file, "    +--" +:+ file) (snd turn))
         (os_walk ignore_dirs OsPath.sep t).
Proof.
  unfold print_tree. f_equal. apply flat_map_agree, Forall_forall.
  intros [[root dirs] files] _. unfold log_turn.
  by rewrite count_replace_sep.
Qed.

(** ** The further properties at the sample pages and trees *)

Module MoreChecks.
Import Sample.

Lemma scrape_request_exception_sample :
  scrape_data_point html_parser (replay []) 0 = (Raise RequestException, 1)
  ∧ run_scrape html_parser (replay []) 0
    = (mkScraped None None None None, 1).
Proof.
  destruct (scrape_request_exception html_parser (replay []) 0 eq_refl)
    as (Hdp & _ & _ & _ & Hrun).
  split; [exact Hdp|exact Hrun].
Defined.

Lemma scrape_unsuccessful_empty_sample :
  scrape_featured_headlines html_parser (serve unavailable) 0
  = (Return [], 1)
  ∧ scrape_most_recent_headlines html_parser (serve unavailable) 0
    = (Return [], 1)
  ∧ scrape_social_media_links html_parser (serve unavailable) 0
    = (Return ∅, 1).
Proof.
  exact (scrape_unsuccessful_empty html_parser (serve unavailable) 0
           unavailable eq_refl eq_refl).
Defined.

Lemma scrape_social_media_links_item_without_link_sample :
  scrape_social_media_links Broken.html_parser
    (serve (page Broken.no_link_markup)) 0
  = (Raise AttributeError, 1).
Proof.
  apply (scrape_social_media_links_item_without_link Broken.html_parser
           (serve (page Broken.no_link_markup)) 0
           (page Broken.no_link_markup)
           (Tag "ul" ["social-icons"] ∅
              [ Tag "li" [] ∅ [NavigableString "Follow us"];
                icon "https://twitter.com/y" ])
           eq_refl eq_refl eq_refl).
  Checks.eval_list. apply Exists_cons_hd. reflexivity.
Defined.

Lemma scrape_social_media_links_filed_sample :
  "https://twitter.com/y" ≠ ""
  ∧ Str.contains "facebook.com" "https://twitter.com/y" = false
  ∧ Str.contains "twitter.com" "https://twitter.com/y" = true.
Proof.
  destruct (scrape_social_media_links_filed html_parser
              (serve (page home_markup)) 0
              {[ "facebook" := "https://facebook.com/x";
                 "twitter" := "https://twitter.com/y" ]}
              "twitter" "https://twitter.com/y")
    as [Hne [[Hkey _]|[(_ & Hfb & Htw)|[Hkey _]]]];
    [vm_compute; reflexivity..| | |].
  - discriminate Hkey.
  - split; [exact Hne|]. split; [exact Hfb|exact Htw].
  - discriminate Hkey.
Defined.

Lemma scrape_headlines_trimmed_sample :
  Forall trimmed ["First"; "Second"] ∧ Forall trimmed ["Recent one"].
Proof.
  split.
  - exact (proj1 (scrape_headlines_trimmed html_parser
                    (serve (page home_markup)) 0) _ eq_refl).
  - exact (proj2 (scrape_headlines_trimmed html_parser
                    (serve (page home_markup)) 0) _ eq_refl).
Defined.

Lemma run_scrape_exception_sample :
  fst (scrape_data_point html_parser (serve (page later_markup)) 0)
  = Return (Some "Quakers lose")
  ∧ fst (run_scrape html_parser (serve (page later_markup)) 0)
    = mkScraped None None None None.
Proof.
  split; [reflexivity|].
  apply run_scrape_exception. right. left. exists AttributeError.
  reflexivity.
Defined.

Lemma print_tree_levels_sample :
  print_tree "/home/runner/work/repo" default_ignore_dirs Disk.checkout
  = [ "Printing tree of files/dirs at /home/runner/work/repo";
      "+--repo/";
      "    +--README.md";
      "    +--scrape.log";
      "    +--data/";
      "        +--daily_pennsylvanian_headlines.json";
      "    +--src/";
      "        +--script.py" ].
Proof.
  rewrite print_tree_levels.
  - vm_compute. reflexivity.
  - discriminate.
  - exists "o"%char. split; [reflexivity|discriminate].
  - reflexivity.
  - Checks.eval_list. repeat constructor.
Defined.

(** [print_tree_levels] needs its last hypothesis: below ["/a"] the
    directory ["/a/x/a"] is two names deep and is logged at level 1, as
    [replace] removes both occurrences of ["/a"] from its path. *)
Lemma print_tree_repeated_name :
  print_tree "/a" default_ignore_dirs Disk.nested
  = [ "Printing tree of files/dirs at /a";
      "+--a/"; "    +--x/"; "    +--a/"; "        +--f" ]
  ∧ listing default_ignore_dirs [] Disk.nested
    = [([], []); (["x"], []); (["x"; "a"], ["f"])].
Proof. split; vm_compute; reflexivity. Qed.

End MoreChecks.
